(** * papis-zotero: the Zotero-connector server ([papis_zotero/server.py])

    A shallow embedding of the field mapper [zotero_data_to_papis_data] and
    of the [saveItems] handler [PapisRequestHandler.add], followed by the
    properties of the connector specification that concern them.

    Conventions of the embedding.
    - A value decoded by [json.loads] is a [json]; a Python [dict] with string
      keys is a [gmap string json] (Python compares dicts regardless of
      insertion order, and so does [=] on [gmap]).
    - A Python call that may raise returns a [result]; the exception classes
      the handler can meet are the constructors of [exn].
    - Everything outside the file (the JSON decoder, the network, the file
      system, Crossref, the papis document store) is an oracle of the record
      [world]; oracles are indexed by the number of effects performed so far,
      so two calls with the same arguments may answer differently.
    - The handler runs in the monad [M]: it threads the chronological list of
      effects ([event]) it has performed, and keeps it when it raises.
    - The trace records the fetches, the files written and checked, the
      calls of the store and what is sent to the client.  The Crossref lookup
      is a read and is not recorded; logging is not modelled. *)

From Stdlib Require Import ZArith Ascii.
From stdpp Require Import gmap strings list fin_maps pretty.

Set Warnings "-register-all".

(** ** Values *)

(** What [json.loads] produces: [None], [bool], [int], [float], [str],
    [list], [dict].  A float is kept as its 64-bit IEEE-754 pattern; the
    server never computes with it. *)
Inductive json : Type :=
| JNull
| JBool (b : bool)
| JInt (z : Z)
| JFloat (bits : Z)
| JStr (s : string)
| JArr (l : list json)
| JObj (m : gmap string json).

Abbreviation dict := (gmap string json).
Abbreviation bytes := (list Byte.byte).

(** ** Exceptions *)

Inductive exn : Type :=
| JSONDecodeError
| UnicodeDecodeError
| KeyError
| TypeError
| AttributeError
| ValueError
| HTTPError (code : Z)      (* urllib.error.HTTPError, a subclass of URLError *)
| URLError                  (* urllib.error.URLError proper: unreachable host ... *)
| TimeoutError              (* socket.timeout *)
| OSError
| OtherError (name : string).

Inductive result (A : Type) : Type :=
| Ok (a : A)
| Raise (e : exn).
Arguments Ok {A} a.
Arguments Raise {A} e.

Definition result_bind {A B} (r : result A) (k : A → result B) : result B :=
  match r with
  | Ok a => k a
  | Raise e => Raise e
  end.

Definition result_map {A B} (f : A → B) (r : result A) : result B :=
  result_bind r (λ a, Ok (f a)).

(** ** Python built-ins used by the server *)

(** [v is None] *)
Definition is_none (v : json) : bool :=
  match v with JNull => true | _ => false end.

(** [d.get(key)]: the value, or [None] when the key is absent. *)
Definition dict_get (key : string) (d : dict) : json :=
  default JNull (d !! key).

(** [d.pop(key, None)]: the value (or [None]) and the dict without the key. *)
Definition dict_pop (key : string) (d : dict) : json * dict :=
  (dict_get key d, delete key d).

(** [d.update(other)]: the entries of [other] win. *)
Definition dict_update (d other : dict) : dict := other ∪ d.

(** [v.get(key)] on an arbitrary value: only a dict has the method. *)
Definition py_get (v : json) (key : string) : result json :=
  match v with
  | JObj d => Ok (dict_get key d)
  | _ => Raise AttributeError
  end.

(** [v[key]] with a string key. *)
Definition py_getitem (v : json) (key : string) : result json :=
  match v with
  | JObj d => match d !! key with Some x => Ok x | None => Raise KeyError end
  | _ => Raise TypeError
  end.

(** Truth value of [v] in a condition. *)
Definition truthy (v : json) : bool :=
  match v with
  | JNull => false
  | JBool b => b
  | JInt z => negb (z =? 0)%Z
  | JFloat bits => negb (Z.land bits (Z.ones 63) =? 0)%Z
  | JStr s => negb (String.eqb s EmptyString)
  | JArr l => negb (bool_decide (l = []))
  | JObj d => negb (bool_decide (dom d = ∅))
  end.

(** [len(v)] *)
Definition py_len (v : json) : result nat :=
  match v with
  | JStr s => Ok (String.length s)
  | JArr l => Ok (List.length l)
  | JObj d => Ok (size d)
  | _ => Raise TypeError
  end.

Fixpoint chars (s : string) : list json :=
  match s with
  | EmptyString => []
  | String c s' => JStr (String c EmptyString) :: chars s'
  end.

(** The values [for x in v] goes through: the elements of a list, the
    characters of a string, the keys of a dict (both as [str] values). *)
Definition py_iter (v : json) : result (list json) :=
  match v with
  | JArr l => Ok l
  | JStr s => Ok (chars s)
  | JObj d => Ok (JStr <$> (map_to_list d).*1)
  | _ => Raise TypeError
  end.

(** [sep.join(l)]: every element must be a [str]. *)
Fixpoint str_items (l : list json) : result (list string) :=
  match l with
  | [] => Ok []
  | JStr s :: l' => result_map (cons s) (str_items l')
  | _ :: _ => Raise TypeError
  end.

Definition str_join (sep : string) (l : list json) : result string :=
  result_map (String.concat sep) (str_items l).

(** [isinstance(v, list)] *)
Definition is_list (v : json) : bool :=
  match v with JArr _ => true | _ => false end.

Section Str.
(** [repr] of a float, a list or a dict, which [str] falls back to. *)
Variable py_repr : json → string.

(** [str(v)] *)
Definition py_str (v : json) : string :=
  match v with
  | JStr s => s
  | JNull => "None"
  | JBool true => "True"
  | JBool false => "False"
  | JInt z => pretty z
  | _ => py_repr v
  end.
End Str.

(** ** The field mapper *)

Section Mapper.
(** [papis_zotero.sql.ZOTERO_TO_PAPIS_FIELD_MAP], in iteration order: the
    pairs (zotero key, papis key).  The table is declared in another file
    of the package; the mapper is parametric in it. *)
Variable ZOTERO_TO_PAPIS_FIELD_MAP : list (string * string).
Variable py_repr : json → string.
(** [papis.crossref.doi_to_data], as it answers during this call. *)
Variable doi_to_data : string → result dict.

(** One round of the loop "translate known zotero keys" on the pair
    [(item, data)]. *)
Definition translate_key (st : dict * dict) (entry : string * string)
  : dict * dict :=
  let '(value, item) := dict_pop entry.1 st.1 in
  (item, if is_none value then st.2 else <[entry.2 := value]> st.2).

(** "check zotero tags": [data] after the [if isinstance(tags, list)]. *)
Definition check_tags (tags : json) (data : dict) : result dict :=
  match tags with
  | JArr l => result_map (λ s, <["tags" := JStr s]> data) (str_join " " l)
  | _ => Ok data
  end.

(** "try to get information from Crossref as well" *)
Definition crossref_update (data : dict) : result dict :=
  let doi := dict_get "doi" data in
  if is_none doi then Ok data
  else
    result_bind (doi_to_data (py_str py_repr doi)) (λ crossref_data,
      let crossref_data := (dict_pop "title" crossref_data).2 in
      Ok (dict_update data crossref_data)).

(** The mapper pops keys off the dict it is given.  The model returns what
    the call returns or raises, and the dict [item] as the call leaves it. *)
Definition zotero_data_to_papis_data (item : dict) : result dict * dict :=
  let data : dict := ∅ in
  let item := (dict_pop "id" item).2 in
  let item := (dict_pop "attachments" item).2 in
  let '(item, data) := foldl translate_key (item, data) ZOTERO_TO_PAPIS_FIELD_MAP in
  let '(tags, item) := dict_pop "tags" item in
  (result_bind (check_tags tags data) (λ data,
     let data := dict_update data item in
     crossref_update data),
   item).
End Mapper.

(** ** The pattern of [re.match(r".*pdf.*", mime)] *)

(** The two kinds of atoms the pattern is made of: a literal character and
    [.*].  Without [re.DOTALL] the dot matches every character but the
    newline; without [re.IGNORECASE] a literal matches itself only.  Strings
    are kept as UTF-8 bytes: no byte of a multi-byte character is a newline
    or an ASCII letter, so matching bytes agrees with matching characters. *)
Inductive re_atom : Type :=
| ReChar (c : ascii)
| ReDotStar.

Definition newline : ascii := ascii_of_nat 10.

(** [re.match(pattern, s) is not None]: some prefix of [s] matches. *)
Fixpoint re_match (pattern : list re_atom) (s : string) : bool :=
  match pattern with
  | [] => true
  | ReChar c :: pattern' =>
      match s with
      | String c' s' => Ascii.eqb c c' && re_match pattern' s'
      | EmptyString => false
      end
  | ReDotStar :: pattern' =>
      (fix dot_star (s : string) : bool :=
         re_match pattern' s ||
         match s with
         | String c s' => negb (Ascii.eqb c newline) && dot_star s'
         | EmptyString => false
         end) s
  end.

Definition pdf_pattern : list re_atom :=
  [ReDotStar; ReChar "p"; ReChar "d"; ReChar "f"; ReDotStar].

(** ** Effects *)

Inductive event : Type :=
| EvUrlopen (url : json)                          (* urllib.request.urlopen(url).read() *)
| EvWriteFile (path : string) (content : bytes)   (* open(path, "wb+") ... fd.write(content) *)
| EvIsPdf (path : string)                         (* papis_zotero.utils.is_pdf(path) *)
| EvAdd (files : list string) (data : dict)       (* papis.commands.add.run(files, data=data) *)
| EvSendResponse (code : Z)
| EvSendHeader (keyword value : string)
| EvEndHeaders
| EvWrite (body : bytes).                         (* self.wfile.write(body) *)

(** What the server calls outside this file.  The first argument of an
    oracle is the number of effects performed before the call. *)
Record world : Type := {
  field_map : list (string * string);   (* ZOTERO_TO_PAPIS_FIELD_MAP *)
  repr : json → string;
  json_loads : bytes → result json;     (* json.loads(raw.decode("utf8")) *)
  urlopen_read : nat → json → result bytes;
  mktemp : nat → string;                (* tempfile.mktemp(suffix=".pdf") *)
  write_file : nat → string → bytes → result unit;
  is_pdf : nat → string → result bool;
  crossref_doi_to_data : nat → string → result dict;
  add_run : nat → list string → dict → result unit
}.

(** A computation takes the trace so far and gives what it returns or
    raises, with the trace extended by its own effects. *)
Definition M (A : Type) : Type := list event → result A * list event.

#[global] Instance M_ret : MRet M := λ A a tr, (Ok a, tr).

#[global] Instance M_bind : MBind M := λ A B k m tr,
  match m tr with
  | (Ok a, tr') => k a tr'
  | (Raise e, tr') => (Raise e, tr')
  end.

(** A pure call that may raise. *)
Definition lift {A} (r : result A) : M A := λ tr, (r, tr).

(** The number of effects so far. *)
Definition clock : M nat := λ tr, (Ok (List.length tr), tr).

(** An effect [e], answered by the oracle [answer]. *)
Definition perform {A} (e : event) (answer : nat → result A) : M A :=
  λ tr, (answer (List.length tr), tr ++ [e]).

Definition emit (e : event) : M unit := perform e (λ _, Ok ()).

(** [try: m except HTTPError: handler] *)
Definition except_HTTPError {A} (m : M A) (handler : M A) : M A := λ tr,
  match m tr with
  | (Raise (HTTPError _), tr') => handler tr'
  | other => other
  end.

(** [for x in l: s = body(s, x)] *)
Fixpoint for_each {A S} (body : S → A → M S) (s : S) (l : list A) : M S :=
  match l with
  | [] => mret s
  | x :: l' => s' ← body s x; for_each body s' l'
  end.

(** ** The request handler *)

(** JSON text is written with [quoted], which puts its argument between
    double quotes. *)
Definition quoted (s : string) : string :=
  String (ascii_of_nat 34) s +:+ String (ascii_of_nat 34) EmptyString.

Definition ZOTERO_CONNECTOR_API_VERSION : Z := 2.
Definition ZOTERO_VERSION : string := "5.0.25".

Module PapisRequestHandler.

(** The part of a request [add] reads: [content_length] is
    [int(self.headers["content-length"])] or what that expression raises,
    [rfile] the bytes waiting on the connection. *)
Record request : Type := {
  content_length : result Z;
  rfile : bytes
}.

Definition send_response (code : Z) : M unit := emit (EvSendResponse code).
Definition send_header (keyword value : string) : M unit :=
  emit (EvSendHeader keyword value).
Definition end_headers : M unit := emit EvEndHeaders.
Definition wfile_write (body : bytes) : M unit := emit (EvWrite body).

Definition set_zotero_headers (w : world) : M unit :=
  send_header "X-Zotero-Version" ZOTERO_VERSION;;
  send_header "X-Zotero-Connector-API-Version"
              (py_str (repr w) (JInt ZOTERO_CONNECTOR_API_VERSION));;
  end_headers.

Definition read_input (rq : request) : result bytes :=
  result_bind (content_length rq) (λ n,
    Ok (if (n <? 0)%Z then rfile rq
        else take (Z.to_nat n) (rfile rq))).

(** The body of [for attachment in item.get("attachments")]; [files] is
    the list the loop appends to. *)
Definition add_attachment (w : world) (files : list string) (attachment : json)
  : M (list string) :=
  mime_type ← lift (py_get attachment "mimeType");
  let mime := py_str (repr w) mime_type in
  if re_match pdf_pattern mime then
    url ← lift (py_get attachment "url");
    fetched ← except_HTTPError
                (pdfbuffer ← perform (EvUrlopen url) (λ t, urlopen_read w t url);
                 mret (Some pdfbuffer))
                (mret None);
    match fetched with
    | None => mret files                                    (* continue *)
    | Some pdfbuffer =>
        t ← clock;
        let pdfpath := mktemp w t in
        perform (EvWriteFile pdfpath pdfbuffer) (λ t, write_file w t pdfpath pdfbuffer);;
        pdf ← perform (EvIsPdf pdfpath) (λ t, is_pdf w t pdfpath);
        if pdf : bool then mret (files ++ [pdfpath]) else mret files
    end
  else mret files.

(** [files] after the [if item.get("attachments") and ...: ... else: ...] *)
Definition add_attachments (w : world) (item : json) : M (list string) :=
  attachments ← lift (py_get item "attachments");
  if truthy attachments then
    n ← lift (py_len attachments);
    if bool_decide (0 < n) then
      l ← lift (py_iter attachments);
      for_each (add_attachment w) [] l
    else mret []
  else mret [].

(** The mapper as the handler calls it: [item] is a dict here, since
    [item.get] did not raise; Crossref answers as it does at that time. *)
Definition map_item (w : world) (item : json) : M dict :=
  match item with
  | JObj d =>
      t ← clock;
      lift (zotero_data_to_papis_data (field_map w) (repr w)
              (crossref_doi_to_data w t) d).1
  | _ => lift (Raise AttributeError)
  end.

(** The body of [for item in data["items"]]. *)
Definition add_item (w : world) (item : json) : M unit :=
  files ← add_attachments w item;
  papis_item ← map_item w item;
  perform (EvAdd files papis_item) (λ t, add_run w t files papis_item).

Definition add (w : world) (rq : request) : M unit :=
  rawinput ← lift (read_input rq);
  data ← lift (json_loads w rawinput);
  items ← lift (result_bind (py_getitem data "items") py_iter);
  for_each (λ _ item, add_item w item) () items;;
  send_response 201;;
  set_zotero_headers w;;
  wfile_write rawinput.

(** What [papis_collection] needs from outside this file: the name of the
    current library, [papis.api.get_lib_name()], and the JSON text
    [json.dumps] writes for a [str]. *)
Record library : Type := {
  get_lib_name : result string;
  json_dumps_str : string → string
}.

(** The page [pong] answers a GET with: the literal of the source, whose
    lines keep the indentation they have there. *)
Definition pong_html : string :=
"            <!DOCTYPE html>
            <html>
                <head>
                    <title>Zotero Connector Server is Available</title>
                </head>
                <body>
                    Zotero Connector Server is Available
                </body>
            </html>
            ".

(** [json.dumps({"prefs": {"automaticSnapshots": True}})] *)
Definition pong_json : string :=
  "{" +:+ quoted "prefs" +:+ ": {" +:+ quoted "automaticSnapshots" +:+ ": true}}".

Definition pong (w : world) (POST : bool) : M unit :=
  response ← (if negb POST then
                send_response 200;;
                send_header "Content-Type" "text/html";;
                set_zotero_headers w;;
                mret pong_html
              else
                send_response 200;;
                send_header "Content-Type" "application/json";;
                set_zotero_headers w;;
                mret pong_json);
  wfile_write (String.list_byte_of_string response).

(** [json.dumps] of the library descriptor: the keys in the order of the
    source, separated as [json.dumps] separates them. *)
Definition collection_json (lib : library) (papis_library : string) : string :=
  "{" +:+ quoted "libraryID" +:+ ": 1, "
  +:+ quoted "libraryName" +:+ ": " +:+ json_dumps_str lib papis_library +:+ ", "
  +:+ quoted "libraryEditable" +:+ ": true, "
  +:+ quoted "editable" +:+ ": true, "
  +:+ quoted "id" +:+ ": null, "
  +:+ quoted "name" +:+ ": " +:+ json_dumps_str lib papis_library +:+ "}".

Definition papis_collection (w : world) (lib : library) : M unit :=
  send_response 200;;
  send_header "Content-Type" "application/json";;
  set_zotero_headers w;;
  papis_library ← lift (get_lib_name lib);
  wfile_write (String.list_byte_of_string (collection_json lib papis_library)).

Definition snapshot (w : world) : M unit :=
  send_response 201;;
  set_zotero_headers w.

Definition do_POST (w : world) (lib : library) (path : string) (rq : request)
  : M unit :=
  if String.eqb path "/connector/ping" then pong w true
  else if String.eqb path "/connector/getSelectedCollection" then papis_collection w lib
  else if String.eqb path "/connector/saveSnapshot" then snapshot w
  else if String.eqb path "/connector/saveItems" then add w rq
  else mret ().

Definition do_GET (w : world) (path : string) : M unit :=
  if String.eqb path "/connector/ping" then pong w false
  else mret ().

End PapisRequestHandler.

(** ** Notions used to state the properties *)

(** The lookup never answers with a mapping that has the key [k]. *)
Definition silent_on (doi_to_data : string → result dict) (k : string) : Prop :=
  ∀ doi m, doi_to_data doi = Ok m → m !! k = None.

(** A lookup that finds nothing to add. *)
Definition crossref_nothing : string → result dict := λ _, Ok ∅.

(** The record without enrichment: what the mapper returns when the lookup
    has nothing to add. *)
Definition unenriched (table : list (string * string)) (py_repr : json → string)
    (item : dict) : result dict :=
  (zotero_data_to_papis_data table py_repr crossref_nothing item).1.

(** The keys the mapper pops off the item. *)
Definition popped_keys (table : list (string * string)) : list string :=
  ["id"; "attachments"] ++ table.*1 ++ ["tags"].

(** No character of [s] is a newline. *)
Definition on_one_line (s : string) : Prop :=
  newline ∉ String.list_ascii_of_string s.

(** [needle] occurs in [s], with no newline before the occurrence. *)
Definition on_first_line (needle s : string) : Prop :=
  ∃ pre post, s = pre +:+ needle +:+ post ∧ on_one_line pre.

(** [needle] occurs in [s]. *)
Definition contains (needle s : string) : Prop :=
  ∃ pre post, s = pre +:+ needle +:+ post.

Definition ascii_lower (c : ascii) : ascii :=
  let n := nat_of_ascii c in
  if (65 <=? n)%nat && (n <=? 90)%nat then ascii_of_nat (n + 32) else c.

Fixpoint string_lower (s : string) : string :=
  match s with
  | EmptyString => EmptyString
  | String c s' => String (ascii_lower c) (string_lower s')
  end.

(** The calls of the document store's add operation in a trace, in order. *)
Definition adds_of (tr : list event) : list (list string * dict) :=
  omap (λ e, match e with EvAdd files data => Some (files, data) | _ => None end) tr.

(** [seg] is what one run of the import pipeline on [item] adds to the
    trace when it completes. *)
Definition pipeline_run (w : world) (item : json) (seg : list event) : Prop :=
  ∃ tr, PapisRequestHandler.add_item w item tr = (Ok (), tr ++ seg).

(** The data of the store call [call] is the mapper's record for [item]. *)
Definition mapped_from (w : world) (item : json) (call : list string * dict) : Prop :=
  ∃ d t, item = JObj d
         ∧ (zotero_data_to_papis_data (field_map w) (repr w)
              (crossref_doi_to_data w t) d).1 = Ok call.2.

(** Status 201, the two protocol headers, and [body]. *)
Definition created_response (body : bytes) : list event :=
  [EvSendResponse 201;
   EvSendHeader "X-Zotero-Version" "5.0.25";
   EvSendHeader "X-Zotero-Connector-API-Version" "2";
   EvEndHeaders;
   EvWrite body].

(** What goes to the client: status line, headers, body. *)
Definition is_client_event (e : event) : bool :=
  match e with
  | EvSendResponse _ | EvSendHeader _ _ | EvEndHeaders | EvWrite _ => true
  | _ => false
  end.

Definition sent_to_client (tr : list event) : list event :=
  List.filter is_client_event tr.

(** The two protocol headers and the end of the headers. *)
Definition protocol_headers : list event :=
  [EvSendHeader "X-Zotero-Version" "5.0.25";
   EvSendHeader "X-Zotero-Connector-API-Version" "2";
   EvEndHeaders].


(** The file at [p] was written and accepted by [is_pdf] within [seg]. *)
Definition checked_pdf (w : world) (seg : list event) (p : string) : Prop :=
  ∃ t content, EvWriteFile p content ∈ seg ∧ EvIsPdf p ∈ seg
               ∧ is_pdf w t p = Ok true.


(** ** Sample inputs *)

Definition example_field_map : list (string * string) :=
  [("DOI", "doi"); ("abstractNote", "abstract"); ("publicationTitle", "journal")].

Definition example_repr (v : json) : string := "<repr>".

Definition example_mktemp (t : nat) : string :=
  "/tmp/tmp" +:+ pretty t +:+ ".pdf".

(** A decoder that knows the bodies listed in [cases]. *)
Fixpoint example_loads (cases : list (string * json)) (raw : bytes) : result json :=
  match cases with
  | [] => Raise JSONDecodeError
  | (body, value) :: cases' =>
      if String.eqb (String.string_of_list_byte raw) body then Ok value
      else example_loads cases' raw
  end.

(** A world where the network answers [net], Crossref answers [crossref],
    every file written is a PDF and the store accepts every document. *)
Definition example_world (cases : list (string * json))
    (net : json → result bytes) (crossref : string → result dict) : world :=
  {| field_map := example_field_map;
     repr := example_repr;
     json_loads := example_loads cases;
     urlopen_read := λ _, net;
     mktemp := example_mktemp;
     write_file := λ _ _ _, Ok ();
     is_pdf := λ _ _, Ok true;
     crossref_doi_to_data := λ _, crossref;
     add_run := λ _ _ _, Ok () |}.

Definition example_request (body : string) : PapisRequestHandler.request :=
  {| PapisRequestHandler.content_length := Ok (Z.of_nat (String.length body));
     PapisRequestHandler.rfile := String.list_byte_of_string body |}.

(** Lookups: one that fails (network down), one whose answer carries the
    keys [id] and [attachments], one that answers with an abstract. *)
Definition crossref_down : string → result dict := λ _, Raise URLError.

Definition crossref_with_id : string → result dict := λ _,
  Ok {[ "id" := JInt 7; "attachments" := JArr []; "publisher" := JStr "ACME" ]}.

Definition crossref_with_abstract : string → result dict := λ _,
  Ok {[ "abstract" := JStr "A3" ]}.

(** Networks: unreachable host, HTTP 404, and one that serves four bytes. *)
Definition net_unreachable : json → result bytes := λ _, Raise URLError.
Definition net_not_found : json → result bytes := λ _, Raise (HTTPError 404).
Definition net_serving : json → result bytes := λ _,
  Ok (String.list_byte_of_string "%PDF").

(** Items. *)
Definition item_with_doi : dict :=
  {[ "title" := JStr "T"; "doi" := JStr "10.1000/x" ]}.

Definition item_with_id : dict :=
  {[ "id" := JInt 1; "attachments" := JArr []; "title" := JStr "T" ]}.

Definition item_with_tag_list : dict :=
  {[ "title" := JStr "T"; "tags" := JArr [JStr "a"; JStr "b"; JStr "c"] ]}.

Definition item_with_tag_string : dict :=
  {[ "title" := JStr "T"; "tags" := JStr "x" ]}.

Definition item_with_both_abstracts : dict :=
  {[ "abstractNote" := JStr "A1"; "abstract" := JStr "A2" ]}.

Definition item_with_both_abstracts_and_doi : dict :=
  <["doi" := JStr "10.1000/x"]> item_with_both_abstracts.

(** Attachment descriptors. *)
Definition pdf_url : json := JStr "http://example.org/a.pdf".

Definition attachment_pdf : dict :=
  {[ "mimeType" := JStr "application/pdf"; "url" := pdf_url ]}.

Definition attachment_PDF_upper : dict :=
  {[ "mimeType" := JStr "application/PDF"; "url" := pdf_url ]}.

Definition attachment_without_mime : dict := {[ "url" := pdf_url ]}.

(** The body of the scenario of the specification,
    [{"items":[{"title":"T","tags":["x"],"attachments":[]}]}], and what
    [json.loads] makes of it. *)
Definition scenario_body : string :=
  "{" +:+ quoted "items" +:+ ":[{" +:+ quoted "title" +:+ ":" +:+ quoted "T"
  +:+ "," +:+ quoted "tags" +:+ ":[" +:+ quoted "x" +:+ "],"
  +:+ quoted "attachments" +:+ ":[]}]}".

Definition scenario_item : json :=
  JObj {[ "title" := JStr "T"; "tags" := JArr [JStr "x"]; "attachments" := JArr [] ]}.

Definition scenario_json : json := JObj {[ "items" := JArr [scenario_item] ]}.

(** A body with one item that has one PDF attachment,
    [{"items":[{"title":"T","attachments":[{"mimeType":"application/pdf","url":"http://example.org/a.pdf"}]}]}]. *)
Definition pdf_body : string :=
  "{" +:+ quoted "items" +:+ ":[{" +:+ quoted "title" +:+ ":" +:+ quoted "T"
  +:+ "," +:+ quoted "attachments" +:+ ":[{" +:+ quoted "mimeType" +:+ ":"
  +:+ quoted "application/pdf" +:+ "," +:+ quoted "url" +:+ ":"
  +:+ quoted "http://example.org/a.pdf" +:+ "}]}]}".

Definition pdf_json : json :=
  JObj {[ "items" :=
            JArr [JObj {[ "title" := JStr "T";
                          "attachments" := JArr [JObj attachment_pdf] ]}] ]}.

Definition known_bodies : list (string * json) :=
  [(scenario_body, scenario_json); (pdf_body, pdf_json)].

(** Further lookups, items and bodies. *)
Definition crossref_with_title : string → result dict := λ _,
  Ok {[ "title" := JStr "Another title"; "publisher" := JStr "ACME" ]}.

Definition item_with_abstract_note : dict :=
  {[ "title" := JStr "T"; "abstractNote" := JStr "A1" ]}.

(** Tags as objects, not strings. *)
Definition item_with_tag_objects : dict :=
  {[ "title" := JStr "T"; "tags" := JArr [JObj {[ "tag" := JStr "x" ]}] ]}.

Definition pdf_item : json :=
  JObj {[ "title" := JStr "T"; "attachments" := JArr [JObj attachment_pdf] ]}.

Definition item_with_attachment_string : dict :=
  {[ "title" := JStr "T"; "attachments" := JStr "a.pdf" ]}.

(** [{"items":[{"title":"T","tags":["x"],"attachments":[]},5]}]: the second
    item is a number. *)
Definition mixed_body : string :=
  "{" +:+ quoted "items" +:+ ":[{" +:+ quoted "title" +:+ ":" +:+ quoted "T"
  +:+ "," +:+ quoted "tags" +:+ ":[" +:+ quoted "x" +:+ "],"
  +:+ quoted "attachments" +:+ ":[]},5]}".

Definition mixed_json : json :=
  JObj {[ "items" := JArr [scenario_item; JInt 5] ]}.

(** [{"items":[]}] and [{}]. *)
Definition empty_batch_body : string := "{" +:+ quoted "items" +:+ ":[]}".
Definition empty_batch_json : json := JObj {[ "items" := JArr [] ]}.
Definition empty_object_body : string := "{}".

Definition more_bodies : list (string * json) :=
  [(mixed_body, mixed_json); (empty_batch_body, empty_batch_json);
   (empty_object_body, JObj ∅)].

(** A library called [papers]; its name needs no escaping. *)
Definition example_library : PapisRequestHandler.library :=
  {| PapisRequestHandler.get_lib_name := Ok "papers";
     PapisRequestHandler.json_dumps_str := quoted |}.

(** * Properties *)

Ltac solve_popped :=
  unfold popped_keys;
  rewrite ?elem_of_app, ?elem_of_cons, ?elem_of_nil; tauto.

Section TranslateLoop.
Implicit Types (table : list (string * string)) (item data : dict) (k : string).

Lemma dict_get_Some k item v : item !! k = Some v → dict_get k item = v.
Proof. unfold dict_get. by intros ->. Qed.

Lemma dict_get_None k item : item !! k = None → dict_get k item = JNull.
Proof. unfold dict_get. by intros ->. Qed.

Lemma translate_key_cons table item data s c :
  foldl translate_key (item, data) ((s, c) :: table)
  = foldl translate_key
      (delete s item,
       if is_none (dict_get s item) then data else <[c := dict_get s item]> data)
      table.
Proof. reflexivity. Qed.

Lemma translate_item_lookup table item data k :
  (foldl translate_key (item, data) table).1 !! k
  = if decide (k ∈ table.*1) then None else item !! k.
Proof.
  revert item data. induction table as [|[s c] tbl IH]; intros item data.
  - cbn [foldl fst]. case_decide as H; [|done]. by apply elem_of_nil in H.
  - rewrite translate_key_cons, IH, fmap_cons. cbn [fst].
    destruct (decide (k ∈ tbl.*1)) as [Hin|Hin];
      destruct (decide (k ∈ s :: tbl.*1)) as [Hin'|Hin']; try done.
    + exfalso. apply Hin'. by right.
    + apply elem_of_cons in Hin' as [->|?]; [|done]. apply lookup_delete_eq.
    + apply lookup_delete_ne. intros ->. apply Hin'. by left.
Qed.

Lemma translate_data_untouched table item data k :
  k ∉ table.*2 →
  (foldl translate_key (item, data) table).2 !! k = data !! k.
Proof.
  revert item data. induction table as [|[s c] tbl IH]; intros item data Hk.
  - done.
  - rewrite fmap_cons in Hk. cbn [snd] in Hk.
    apply not_elem_of_cons in Hk as [Hc Hk].
    rewrite translate_key_cons, IH by done.
    destruct (is_none _); [done|]. by rewrite lookup_insert_ne.
Qed.

Lemma translate_nothing table item data :
  (∀ k, k ∈ table.*1 → item !! k = None) →
  foldl translate_key (item, data) table = (item, data).
Proof.
  induction table as [|[s c] tbl IH]; intros Hk; [done|].
  rewrite translate_key_cons.
  assert (item !! s = None) as Hs by (apply Hk; rewrite fmap_cons; by left).
  rewrite (dict_get_None _ _ Hs), (delete_id _ _ Hs). cbn [is_none].
  apply IH. intros k Hin. apply Hk. rewrite fmap_cons. by right.
Qed.

Lemma translate_data_set table item data s K v :
  NoDup table.*1 → (s, K) ∈ table →
  (∀ s', (s', K) ∈ table → s' = s) →
  item !! s = Some v → is_none v = false →
  (foldl translate_key (item, data) table).2 !! K = Some v.
Proof.
  revert item data. induction table as [|[s0 c0] tbl IH]; intros item data Hnd Hin Huniq Hs Hv.
  - by apply elem_of_nil in Hin.
  - rewrite fmap_cons in Hnd. cbn [fst] in Hnd. apply NoDup_cons in Hnd as [Hs0 Hnd].
    rewrite translate_key_cons.
    apply elem_of_cons in Hin as [Heq|Hin].
    + injection Heq as <- <-. rewrite (dict_get_Some _ _ _ Hs), Hv.
      rewrite translate_data_untouched; [apply lookup_insert_eq|].
      intros HK. apply list_elem_of_fmap in HK as [[s' c'] [HcK Hin']].
      cbn [snd] in HcK. subst c'. 
      assert (s' = s) as -> by (apply Huniq; by right).
      apply Hs0. apply list_elem_of_fmap. by exists (s, K).
    + assert (s0 ≠ s) as Hne.
      { intros ->. apply Hs0. apply list_elem_of_fmap. by exists (s, K). }
      apply IH; try done.
      * intros s' Hs'. apply Huniq. by right.
      * by rewrite lookup_delete_ne.
Qed.
End TranslateLoop.

Section MapperFacts.
Context (table : list (string * string)) (py_repr : json → string).
Implicit Types (lookup : string → result dict).
Implicit Types (item data : dict) (k : string).

Lemma mapper_unfold lookup item :
  zotero_data_to_papis_data table py_repr lookup item
  = let st := foldl translate_key (delete "attachments" (delete "id" item), ∅) table in
    (result_bind (check_tags (dict_get "tags" st.1) st.2) (λ data,
       crossref_update py_repr lookup (dict_update data (delete "tags" st.1))),
     delete "tags" st.1).
Proof.
  unfold zotero_data_to_papis_data. cbn [dict_pop snd].
  by destruct (foldl translate_key _ table).
Qed.

Lemma mapper_item_after lookup item k :
  (zotero_data_to_papis_data table py_repr lookup item).2 !! k
  = if decide (k ∈ popped_keys table) then None else item !! k.
Proof.
  rewrite mapper_unfold. cbn [snd]. unfold popped_keys.
  destruct (decide (k = "tags")) as [->|Htags].
  { rewrite lookup_delete_eq. rewrite decide_True; [done|]. solve_popped. }
  rewrite lookup_delete_ne by done. rewrite translate_item_lookup.
  destruct (decide (k ∈ table.*1)) as [Hin|Hin].
  { rewrite decide_True; [done|]. solve_popped. }
  destruct (decide (k = "attachments")) as [->|Hatt].
  { rewrite lookup_delete_eq. rewrite decide_True; [done|]. solve_popped. }
  rewrite lookup_delete_ne by done.
  destruct (decide (k = "id")) as [->|Hid].
  { rewrite lookup_delete_eq. rewrite decide_True; [done|]. solve_popped. }
  rewrite lookup_delete_ne by done.
  rewrite decide_False; [done|]. revert Htags Hin Hatt Hid. solve_popped.
Qed.

Lemma check_tags_other tags data0 data1 k :
  check_tags tags data0 = Ok data1 → k ≠ "tags" → data1 !! k = data0 !! k.
Proof.
  intros H Hk. destruct tags; cbn in H; try (by injection H as <-).
  unfold str_join, result_map, result_bind in H.
  destruct (str_items l); [|done]. injection H as <-.
  by rewrite lookup_insert_ne.
Qed.

Lemma crossref_update_inv lookup data2 data :
  crossref_update py_repr lookup data2 = Ok data →
  data = data2 ∨
  ∃ m, lookup (py_str py_repr (dict_get "doi" data2)) = Ok m
       ∧ data = delete "title" m ∪ data2.
Proof.
  unfold crossref_update. destruct (is_none _).
  - intros [= <-]. by left.
  - destruct (lookup _) as [m|e] eqn:Hm; cbn; [|done].
    intros [= <-]. right. by exists m.
Qed.

Lemma crossref_update_silent lookup data2 data k :
  silent_on lookup k →
  crossref_update py_repr lookup data2 = Ok data → data !! k = data2 !! k.
Proof.
  intros Hsil [->|(m & Hm & ->)]%crossref_update_inv; [done|].
  apply Hsil in Hm. rewrite lookup_union_r; [done|].
  destruct (decide (k = "title")) as [->|?];
    [apply lookup_delete_eq | by rewrite lookup_delete_ne].
Qed.

Lemma mapper_inv lookup item data :
  (zotero_data_to_papis_data table py_repr lookup item).1 = Ok data →
  ∃ data1,
    check_tags
      (dict_get "tags" (foldl translate_key (delete "attachments" (delete "id" item), ∅) table).1)
      (foldl translate_key (delete "attachments" (delete "id" item), ∅) table).2 = Ok data1
    ∧ crossref_update py_repr lookup
        (dict_update data1 (zotero_data_to_papis_data table py_repr lookup item).2) = Ok data.
Proof.
  rewrite mapper_unfold. cbn [fst snd].
  destruct (check_tags _ _) as [data1|e] eqn:Htags; cbn; [|done].
  intros H. by exists data1.
Qed.

Lemma crossref_nothing_update data2 data :
  crossref_update py_repr crossref_nothing data2 = Ok data → data = data2.
Proof.
  intros [->|(m & Hm & ->)]%crossref_update_inv; [done|].
  injection Hm as <-. by rewrite delete_empty, (left_id_L ∅ (∪)).
Qed.

Lemma unenriched_inv lookup item data0 :
  unenriched table py_repr item = Ok data0 →
  ∃ data1,
    check_tags
      (dict_get "tags" (foldl translate_key (delete "attachments" (delete "id" item), ∅) table).1)
      (foldl translate_key (delete "attachments" (delete "id" item), ∅) table).2 = Ok data1
    ∧ data0 = dict_update data1 (zotero_data_to_papis_data table py_repr lookup item).2.
Proof.
  unfold unenriched. rewrite !mapper_unfold. cbn [fst snd].
  destruct (check_tags _ _) as [data1|e] eqn:Htags; cbn; [|done].
  intros ->%crossref_nothing_update. by exists data1.
Qed.

Lemma mapper_from_unenriched lookup item data0 :
  unenriched table py_repr item = Ok data0 →
  (zotero_data_to_papis_data table py_repr lookup item).1
  = crossref_update py_repr lookup data0.
Proof.
  intros (data1 & Htags & ->)%(unenriched_inv lookup).
  rewrite mapper_unfold. cbn [fst snd]. by rewrite Htags.
Qed.

(** C1 (amended).  The record the mapper returns has neither the key [id]
    nor the key [attachments], whatever keys the item holds, provided that no
    entry of the table translates to one of the two and that the mapping the
    lookup answers with has neither.  The keys [id] and [attachments] of the
    item itself are always removed; the answer of the lookup is merged into
    the record as it is, except for its [title]. *)
Theorem mapper_strips_id_attachments lookup item data :
  "id" ∉ table.*2 → "attachments" ∉ table.*2 →
  silent_on lookup "id" → silent_on lookup "attachments" →
  (zotero_data_to_papis_data table py_repr lookup item).1 = Ok data →
  data !! "id" = None ∧ data !! "attachments" = None.
Proof.
  intros Hid Hatt Sid Satt (data1 & Htags & Hcr)%mapper_inv.
  rewrite (crossref_update_silent _ _ _ _ Sid Hcr).
  rewrite (crossref_update_silent _ _ _ _ Satt Hcr).
  unfold dict_update. rewrite !lookup_union, !mapper_item_after.
  rewrite !decide_True by solve_popped.
  rewrite (check_tags_other _ _ _ _ Htags) by done.
  rewrite (check_tags_other _ _ _ _ Htags) by done.
  rewrite !translate_data_untouched by done. done.
Qed.

(** C3 (amended).  When the record before enrichment has a [doi] that is not
    [None], the lookup decides how the mapper ends: an error raised by the
    lookup is raised by the mapper (no record is returned); a mapping it
    answers with is merged into the record, without its [title]; an empty
    answer gives the un-enriched record. *)
Theorem lookup_failure_propagates lookup item data0 v :
  unenriched table py_repr item = Ok data0 →
  data0 !! "doi" = Some v → is_none v = false →
  (∀ e, lookup (py_str py_repr v) = Raise e →
        (zotero_data_to_papis_data table py_repr lookup item).1 = Raise e)
  ∧ (∀ m, lookup (py_str py_repr v) = Ok m →
          (zotero_data_to_papis_data table py_repr lookup item).1
          = Ok (delete "title" m ∪ data0))
  ∧ (lookup (py_str py_repr v) = Ok ∅ →
     (zotero_data_to_papis_data table py_repr lookup item).1 = Ok data0).
Proof.
  intros Hun Hdoi Hv. rewrite (mapper_from_unenriched lookup _ _ Hun).
  unfold crossref_update. rewrite (dict_get_Some _ _ _ Hdoi), Hv.
  split; [|split].
  - by intros e ->.
  - by intros m ->.
  - intros ->. cbn. unfold dict_update. by rewrite delete_empty, (left_id_L ∅ (∪)).
Qed.

Lemma str_items_strings ss : str_items (JStr <$> ss) = Ok ss.
Proof. induction ss as [|s ss IH]; [done|]. cbn. by rewrite IH. Qed.

(** C5 (amended).  Let the item hold [tags], let [tags] not be a source key of
    the table and let the lookup answer no [tags].  If the value is a list of
    strings, the record maps [tags] to these strings joined by single spaces.
    If the value is not a list it is popped and not copied: the record has no
    key [tags] (unless the table translates some other key to [tags]). *)
Theorem tags_mapping lookup item data v :
  "tags" ∉ table.*1 → silent_on lookup "tags" →
  item !! "tags" = Some v →
  (zotero_data_to_papis_data table py_repr lookup item).1 = Ok data →
  (∀ ss, v = JArr (JStr <$> ss) →
         data !! "tags" = Some (JStr (String.concat " " ss)))
  ∧ (is_list v = false → "tags" ∉ table.*2 → data !! "tags" = None).
Proof.
  intros Hsrc Hsil Hv (data1 & Htags & Hcr)%mapper_inv.
  rewrite (crossref_update_silent _ _ _ _ Hsil Hcr).
  unfold dict_update. rewrite lookup_union_r
    by (rewrite mapper_item_after; apply decide_True; solve_popped).
  assert ((foldl translate_key (delete "attachments" (delete "id" item), ∅) table).1
            !! "tags" = Some v) as Hst.
  { rewrite translate_item_lookup, decide_False by done.
    by rewrite !lookup_delete_ne. }
  rewrite (dict_get_Some _ _ _ Hst) in Htags. split.
  - intros ss ->. cbn in Htags. unfold str_join in Htags.
    rewrite str_items_strings in Htags. injection Htags as <-.
    apply lookup_insert_eq.
  - intros Hlist Htgt. destruct v; try discriminate Hlist;
      injection Htags as <-; by rewrite translate_data_untouched.
Qed.

(** C6 (amended).  Let the item hold a source key [s] that the table translates
    to [K], with a value other than [None], and also the key [K] itself, which
    is not a source key.  Then the record maps [K] to the value the item has
    under [K]: the leftovers are copied after the translated fields and win.
    This holds for [K] other than [id], [attachments] and [tags], which the
    mapper pops, and as long as the lookup answers no [K]: the enrichment
    merge comes after the copy and is the last write. *)
Theorem leftover_overwrites_translated lookup item data s K v u :
  (s, K) ∈ table → item !! s = Some v → is_none v = false →
  K ∉ table.*1 → item !! K = Some u →
  K ∉ ["id"; "attachments"; "tags"] → silent_on lookup K →
  (zotero_data_to_papis_data table py_repr lookup item).1 = Ok data →
  data !! K = Some u.
Proof.
  intros _ _ _ Hsrc Hu HK Hsil (data1 & Htags & Hcr)%mapper_inv.
  rewrite (crossref_update_silent _ _ _ _ Hsil Hcr).
  unfold dict_update. apply lookup_union_Some_l.
  rewrite mapper_item_after, decide_False; [done|].
  revert HK Hsrc. solve_popped.
Qed.

Lemma mapper_nothing_to_pop lookup item :
  (∀ k, k ∈ popped_keys table → item !! k = None) →
  zotero_data_to_papis_data table py_repr lookup item
  = (crossref_update py_repr lookup item, item).
Proof.
  intros Hk.
  assert (item !! "id" = None) as Hid by (apply Hk; solve_popped).
  assert (item !! "attachments" = None) as Hatt by (apply Hk; solve_popped).
  assert (item !! "tags" = None) as Htags by (apply Hk; solve_popped).
  rewrite mapper_unfold. cbn zeta.
  rewrite (delete_id _ _ Hid), (delete_id _ _ Hatt).
  rewrite translate_nothing by (intros k Hin; apply Hk; solve_popped).
  cbn [fst snd]. rewrite (dict_get_None _ _ Htags), (delete_id _ _ Htags).
  cbn. unfold dict_update. by rewrite (right_id_L ∅ (∪)).
Qed.

(** C9 (amended).  The mapper is a function of the content of the item and of
    the lookup, but it pops [id], [attachments], the source keys of the table
    and [tags] off the dict it is given.  A second invocation on the same dict
    therefore maps what the first one left: it leaves the dict as it found
    it, returns the enrichment of these leftovers alone, and every later
    invocation repeats that outcome.  It repeats the outcome of the first
    invocation when the item held none of the popped keys. *)
Theorem mapper_second_invocation lookup item :
  let first := zotero_data_to_papis_data table py_repr lookup item in
  let second := zotero_data_to_papis_data table py_repr lookup first.2 in
  let third := zotero_data_to_papis_data table py_repr lookup second.2 in
  second.2 = first.2
  ∧ second.1 = crossref_update py_repr lookup first.2
  ∧ third = second
  ∧ ((∀ k, k ∈ popped_keys table → item !! k = None) → second = first).
Proof.
  intros first second third.
  assert (second = (crossref_update py_repr lookup first.2, first.2)) as H2.
  { apply mapper_nothing_to_pop. intros k Hk. unfold first.
    by rewrite mapper_item_after, decide_True. }
  repeat split.
  - by rewrite H2.
  - by rewrite H2.
  - unfold third. rewrite H2 at 1. cbn [snd]. done.
  - intros Hitem. unfold second, first.
    pose proof (mapper_nothing_to_pop lookup item Hitem) as E.
    rewrite E. cbn [snd]. exact E.
Qed.
End MapperFacts.

Section Regex.
Implicit Types (s pre post rest : string) (p : list re_atom).

Lemma append_nil s : EmptyString +:+ s = s.
Proof. reflexivity. Qed.

Lemma append_cons c s1 s2 : String c s1 +:+ s2 = String c (s1 +:+ s2).
Proof. reflexivity. Qed.

Lemma re_match_dot_star p s :
  re_match (ReDotStar :: p) s
  = re_match p s
    || match s with
       | String c s' => negb (Ascii.eqb c newline) && re_match (ReDotStar :: p) s'
       | EmptyString => false
       end.
Proof. by destruct s. Qed.

Lemma on_one_line_nil : on_one_line EmptyString.
Proof. unfold on_one_line. cbn. apply not_elem_of_nil. Qed.

Lemma on_one_line_cons c s :
  on_one_line (String c s) ↔ c ≠ newline ∧ on_one_line s.
Proof.
  unfold on_one_line. cbn. rewrite not_elem_of_cons. split; intros [? ?]; by split.
Qed.

Lemma re_match_dot_star_iff p s :
  re_match (ReDotStar :: p) s = true
  ↔ ∃ pre rest, s = pre +:+ rest ∧ on_one_line pre ∧ re_match p rest = true.
Proof.
  induction s as [|c s IH]; rewrite re_match_dot_star.
  - rewrite orb_false_r. split.
    + intros H. exists EmptyString, EmptyString. split; [done|]. split; [apply on_one_line_nil|done].
    + intros (pre & rest & Heq & _ & H). destruct pre; [|done]. rewrite append_nil in Heq. by subst rest.
  - rewrite orb_true_iff, andb_true_iff, negb_true_iff, IH. split.
    + intros [H|[Hc (pre & rest & -> & Hpre & H)]].
      * exists EmptyString, (String c s). split; [done|]. split; [apply on_one_line_nil|done].
      * exists (String c pre), rest. split; [done|]. split; [|done].
        apply on_one_line_cons. split; [|done]. by apply Ascii.eqb_neq.
    + intros (pre & rest & Heq & Hpre & H). destruct pre as [|c' pre].
      * rewrite append_nil in Heq. left. by subst rest.
      * rewrite append_cons in Heq. injection Heq as <- ->. apply on_one_line_cons in Hpre as [Hc Hpre].
        right. split; [by apply Ascii.eqb_neq|]. by exists pre, rest.
Qed.

Lemma re_match_char c p s :
  re_match (ReChar c :: p) s = true
  ↔ ∃ s', s = String c s' ∧ re_match p s' = true.
Proof.
  destruct s as [|c' s']; cbn [re_match].
  - split; [done|]. by intros (? & ? & _).
  - rewrite andb_true_iff, Ascii.eqb_eq. split.
    + intros [-> H]. by exists s'.
    + intros (? & [= -> ->] & H). done.
Qed.

Lemma re_match_pdf_tail rest :
  re_match [ReChar "p"; ReChar "d"; ReChar "f"; ReDotStar] rest = true
  ↔ ∃ post, rest = "pdf" +:+ post.
Proof.
  split.
  - intros (s1 & -> & (s2 & -> & (s3 & -> & _)%re_match_char)%re_match_char)%re_match_char.
    by exists s3.
  - intros [post ->]. rewrite !append_cons, append_nil.
    apply re_match_char. eexists. split; [done|].
    apply re_match_char. eexists. split; [done|].
    apply re_match_char. eexists. split; [done|].
    by destruct post.
Qed.

Lemma re_match_pdf mime :
  re_match pdf_pattern mime = true ↔ on_first_line "pdf" mime.
Proof.
  unfold pdf_pattern, on_first_line. rewrite re_match_dot_star_iff. split.
  - intros (pre & rest & -> & Hpre & [post ->]%re_match_pdf_tail). by exists pre, post.
  - intros (pre & post & -> & Hpre). exists pre, ("pdf" +:+ post).
    split; [done|]. split; [done|]. apply re_match_pdf_tail. by exists post.
Qed.

Lemma string_lower_app s1 s2 :
  string_lower (s1 +:+ s2) = string_lower s1 +:+ string_lower s2.
Proof.
  induction s1 as [|c s1 IH]; [done|].
  rewrite append_cons. cbn [string_lower]. by rewrite IH, append_cons.
Qed.

Lemma on_first_line_contains_lower mime :
  on_first_line "pdf" mime → contains "pdf" (string_lower mime).
Proof.
  intros (pre & post & -> & _). exists (string_lower pre), (string_lower post).
  by rewrite !string_lower_app.
Qed.
End Regex.

Import PapisRequestHandler.

Section Monad.
Context {A B : Type}.

Lemma bind_unfold (m : M A) (k : A → M B) tr :
  (m ≫= k) tr
  = match m tr with
    | (Ok a, tr') => k a tr'
    | (Raise e, tr') => (Raise e, tr')
    end.
Proof. reflexivity. Qed.

Lemma bind_Ok (m : M A) (k : A → M B) tr a tr' :
  m tr = (Ok a, tr') → (m ≫= k) tr = k a tr'.
Proof. intros H. by rewrite bind_unfold, H. Qed.

Lemma bind_Raise (m : M A) (k : A → M B) tr e tr' :
  m tr = (Raise e, tr') → (m ≫= k) tr = (Raise e, tr').
Proof. intros H. by rewrite bind_unfold, H. Qed.
End Monad.

Section Loops.
Context {A S : Type} (body : S → A → M S).

Lemma for_each_cons s x l tr :
  for_each body s (x :: l) tr
  = match body s x tr with
    | (Ok s', tr') => for_each body s' l tr'
    | (Raise e, tr') => (Raise e, tr')
    end.
Proof. reflexivity. Qed.

Lemma for_each_app s l1 l2 tr :
  for_each body s (l1 ++ l2) tr
  = match for_each body s l1 tr with
    | (Ok s', tr') => for_each body s' l2 tr'
    | (Raise e, tr') => (Raise e, tr')
    end.
Proof.
  revert s tr. induction l1 as [|x l1 IH]; intros s tr; [done|].
  rewrite <- app_comm_cons, !for_each_cons.
  destruct (body s x tr) as [[s'|e] tr']; [apply IH|done].
Qed.
End Loops.

Section Attachments.
Context (w : world).
Implicit Types (files : list string) (a : dict) (tr : list event).

Lemma add_attachment_no_match files a tr :
  re_match pdf_pattern (py_str (repr w) (dict_get "mimeType" a)) = false →
  add_attachment w files (JObj a) tr = (Ok files, tr).
Proof.
  intros H. unfold add_attachment. rewrite bind_unfold. cbn [lift py_get].
  by rewrite H.
Qed.

Lemma add_attachment_match files a tr :
  re_match pdf_pattern (py_str (repr w) (dict_get "mimeType" a)) = true →
  add_attachment w files (JObj a) tr
  = let url := dict_get "url" a in
    let tr1 := tr ++ [EvUrlopen url] in
    match urlopen_read w (length tr) url with
    | Raise (HTTPError _) => (Ok files, tr1)
    | Raise e => (Raise e, tr1)
    | Ok pdfbuffer =>
        let pdfpath := mktemp w (length tr1) in
        let tr2 := tr1 ++ [EvWriteFile pdfpath pdfbuffer] in
        match write_file w (length tr1) pdfpath pdfbuffer with
        | Raise e => (Raise e, tr2)
        | Ok _ =>
            let tr3 := tr2 ++ [EvIsPdf pdfpath] in
            match is_pdf w (length tr2) pdfpath with
            | Raise e => (Raise e, tr3)
            | Ok true => (Ok (files ++ [pdfpath]), tr3)
            | Ok false => (Ok files, tr3)
            end
        end
    end.
Proof.
  intros H. unfold add_attachment. rewrite bind_unfold. cbn [lift py_get].
  rewrite H.
  cbv beta iota zeta delta [mbind M_bind mret M_ret lift perform clock except_HTTPError py_get].
  destruct (urlopen_read w (length tr) (dict_get "url" a)) as [buf|e].
  - destruct (write_file _ _ _ _) as [[]|e]; [|done].
    by destruct (is_pdf _ _ _) as [[]|e].
  - by destruct e.
Qed.
End Attachments.

Section Pipeline.
Context (w : world).
Implicit Types (files : list string) (a : dict) (tr seg : list event) (item : json).

Lemma adds_of_app tr1 tr2 : adds_of (tr1 ++ tr2) = adds_of tr1 ++ adds_of tr2.
Proof. apply omap_app. Qed.

Lemma add_attachment_trace files att tr r tr' :
  add_attachment w files att tr = (r, tr') →
  ∃ seg, tr' = tr ++ seg ∧ adds_of seg = [].
Proof.
  destruct att as [| | | | | |a];
    try (intros [= _ <-]; exists []; by rewrite app_nil_r).
  destruct (re_match pdf_pattern (py_str (repr w) (dict_get "mimeType" a))) eqn:Hm.
  - rewrite add_attachment_match by done. cbn zeta.
    destruct (urlopen_read _ _ _) as [buf|e].
    + destruct (write_file _ _ _ _) as [[]|e].
      * destruct (is_pdf _ _ _) as [[]|e]; intros [= _ <-];
          rewrite <- !app_assoc; by eexists.
      * intros [= _ <-]. rewrite <- !app_assoc; by eexists.
    + destruct e; intros [= _ <-]; by eexists.
  - rewrite add_attachment_no_match by done.
    intros [= _ <-]; exists []; by rewrite app_nil_r.
Qed.

Lemma attachments_loop_trace l files tr r tr' :
  for_each (add_attachment w) files l tr = (r, tr') →
  ∃ seg, tr' = tr ++ seg ∧ adds_of seg = [].
Proof.
  revert files tr. induction l as [|att l IH]; intros files tr.
  - intros [= _ <-]. exists []. by rewrite app_nil_r.
  - rewrite for_each_cons.
    destruct (add_attachment w files att tr) as [[files'|e] tr1] eqn:Hatt;
      apply add_attachment_trace in Hatt as (seg1 & -> & Hseg1).
    + intros (seg2 & -> & Hseg2)%IH. exists (seg1 ++ seg2).
      by rewrite app_assoc, adds_of_app, Hseg1, Hseg2.
    + intros [= _ <-]. by exists seg1.
Qed.

Lemma add_attachments_trace item tr r tr' :
  add_attachments w item tr = (r, tr') →
  ∃ seg, tr' = tr ++ seg ∧ adds_of seg = [].
Proof.
  assert (∀ x : result (list string), (x, tr) = (r, tr') →
            ∃ seg, tr' = tr ++ seg ∧ adds_of seg = []) as Hpure.
  { intros x [= _ <-]. exists []. by rewrite app_nil_r. }
  unfold add_attachments. rewrite bind_unfold. unfold lift at 1.
  destruct (py_get item "attachments") as [att|e]; [|apply Hpure].
  destruct (truthy att); [|apply Hpure].
  rewrite bind_unfold. unfold lift at 1.
  destruct (py_len att) as [n|e]; [|apply Hpure].
  case_bool_decide; [|apply Hpure].
  rewrite bind_unfold. unfold lift at 1.
  destruct (py_iter att) as [l|e]; [|apply Hpure].
  apply attachments_loop_trace.
Qed.

Lemma add_item_inv item tr tr' :
  add_item w item tr = (Ok (), tr') →
  ∃ d files seg data,
    item = JObj d
    ∧ add_attachments w item tr = (Ok files, tr ++ seg)
    ∧ adds_of seg = []
    ∧ (zotero_data_to_papis_data (field_map w) (repr w)
         (crossref_doi_to_data w (length (tr ++ seg))) d).1 = Ok data
    ∧ tr' = tr ++ seg ++ [EvAdd files data].
Proof.
  unfold add_item. rewrite bind_unfold.
  destruct (add_attachments w item tr) as [[files|e] tr1] eqn:Hatt; [|done].
  apply add_attachments_trace in Hatt as Hseg. destruct Hseg as (seg & -> & Hseg).
  rewrite bind_unfold. destruct item as [| | | | | |d]; try done.
  cbv beta iota delta [map_item mbind M_bind clock lift perform].
  destruct (zotero_data_to_papis_data _ _ _ d).1 as [data|e] eqn:Hmap; [|done].
  intros [= _ <-]. exists d, files, seg, data. by rewrite app_assoc.
Qed.

Lemma items_loop_inv items tr tr1 :
  for_each (λ _ item, add_item w item) () items tr = (Ok (), tr1) →
  ∃ segs,
    tr1 = tr ++ concat segs
    ∧ Forall2 (pipeline_run w) items segs
    ∧ Forall2 (mapped_from w) items (adds_of (concat segs)).
Proof.
  revert tr. induction items as [|item items IH]; intros tr.
  - intros [= <-]. exists []. cbn. by rewrite app_nil_r.
  - rewrite for_each_cons.
    destruct (add_item w item tr) as [[[]|e] tr'] eqn:Hitem; [|done].
    intros (segs & -> & Hruns & Hadds)%IH.
    pose proof Hitem as (d & files & seg & data & -> & _ & Hseg & Hmap & ->)%add_item_inv.
    exists ((seg ++ [EvAdd files data]) :: segs). split; [|split].
    + cbn [concat]. by rewrite <- !app_assoc.
    + constructor; [|done]. exists tr. by rewrite Hitem.
    + cbn [concat]. rewrite !adds_of_app, Hseg. cbn.
      constructor; [|done]. by exists d, (length (tr ++ seg)).
Qed.
End Pipeline.

Section Handler.
Context (w : world).
Implicit Types (files : list string) (a d : dict) (tr : list event) (item : json).

(** C2 (amended).  When the fetch of a PDF attachment raises [HTTPError] (the
    server answered with an error status), the handler skips that attachment
    only: the file list is unchanged, nothing is raised, and the loop goes on
    with the attachments that follow. *)
Theorem http_error_skips_attachment files a rest tr code :
  re_match pdf_pattern (py_str (repr w) (dict_get "mimeType" a)) = true →
  urlopen_read w (length tr) (dict_get "url" a) = Raise (HTTPError code) →
  add_attachment w files (JObj a) tr
  = (Ok files, tr ++ [EvUrlopen (dict_get "url" a)])
  ∧ for_each (add_attachment w) files (JObj a :: rest) tr
    = for_each (add_attachment w) files rest (tr ++ [EvUrlopen (dict_get "url" a)]).
Proof.
  intros Hm Hnet.
  assert (add_attachment w files (JObj a) tr
          = (Ok files, tr ++ [EvUrlopen (dict_get "url" a)])) as Hskip.
  { rewrite add_attachment_match by done. cbn zeta. by rewrite Hnet. }
  split; [done|]. by rewrite for_each_cons, Hskip.
Qed.

(** C4 (amended).  Whether the URL of an attachment is fetched is decided by a
    case-sensitive match on the declared media type: it is fetched when the
    media type contains lower-case [pdf] with no newline before it, and not
    fetched otherwise; in particular a media type that does not contain [pdf]
    in any case is never fetched. *)
Theorem fetch_decision files a mime tr :
  a !! "mimeType" = Some (JStr mime) →
  (on_first_line "pdf" mime →
     ∃ r tr', add_attachment w files (JObj a) tr
              = (r, tr ++ EvUrlopen (dict_get "url" a) :: tr'))
  ∧ (¬ on_first_line "pdf" mime →
     add_attachment w files (JObj a) tr = (Ok files, tr))
  ∧ (¬ contains "pdf" (string_lower mime) →
     add_attachment w files (JObj a) tr = (Ok files, tr)).
Proof.
  intros Hmime.
  assert (py_str (repr w) (dict_get "mimeType" a) = mime) as Hstr.
  { unfold dict_get. by rewrite Hmime. }
  assert (¬ on_first_line "pdf" mime →
          add_attachment w files (JObj a) tr = (Ok files, tr)) as Hno.
  { intros Hn. apply add_attachment_no_match. rewrite Hstr.
    apply not_true_is_false. by rewrite re_match_pdf. }
  split; [|split]; [|done|].
  - intros Hpdf%re_match_pdf. rewrite <- Hstr in Hpdf.
    rewrite add_attachment_match by done. cbn zeta.
    destruct (urlopen_read _ _ _) as [buf|e].
    + destruct (write_file _ _ _ _) as [[]|e].
      * destruct (is_pdf _ _ _) as [[]|e]; rewrite <- !app_assoc; by eexists _, _.
      * rewrite <- !app_assoc; by eexists _, _.
    + destruct e; by eexists _, [].
  - intros Hn. apply Hno. contradict Hn. by apply on_first_line_contains_lower.
Qed.

Lemma mapper_ignores_attachments lookup d x y :
  zotero_data_to_papis_data (field_map w) (repr w) lookup (<["attachments" := x]> d)
  = zotero_data_to_papis_data (field_map w) (repr w) lookup (<["attachments" := y]> d).
Proof.
  rewrite !mapper_unfold.
  by rewrite !(delete_insert_ne _ "id" "attachments"), !delete_insert_eq.
Qed.

Lemma add_attachments_list d l tr :
  add_attachments w (JObj (<["attachments" := JArr l]> d)) tr
  = for_each (add_attachment w) [] l tr.
Proof.
  unfold add_attachments. rewrite bind_unfold. unfold lift at 1.
  cbn [py_get]. unfold dict_get. rewrite lookup_insert_eq. cbn [default from_option id].
  destruct l as [|att l]; [done|].
  cbn [truthy]. rewrite bool_decide_eq_false_2 by done. cbn [negb].
  rewrite bind_unfold. unfold lift at 1. cbn [py_len].
  rewrite bool_decide_eq_true_2 by (cbn; lia).
  by rewrite bind_unfold.
Qed.

(** C10.  An attachment descriptor without the key [mimeType]: the missing
    value becomes the string [None], which the pattern does not match; the
    handler fetches nothing for it and does not raise, and the item is
    processed exactly as if the descriptor were not in the list. *)
Theorem missing_mime_type_skipped files a tr :
  a !! "mimeType" = None →
  py_str (repr w) (dict_get "mimeType" a) = "None"
  ∧ re_match pdf_pattern "None" = false
  ∧ add_attachment w files (JObj a) tr = (Ok files, tr)
  ∧ ∀ d before after,
      add_item w (JObj (<["attachments" := JArr (before ++ JObj a :: after)]> d)) tr
      = add_item w (JObj (<["attachments" := JArr (before ++ after)]> d)) tr.
Proof.
  intros Hmime.
  assert (py_str (repr w) (dict_get "mimeType" a) = "None") as Hstr
    by (by rewrite (dict_get_None _ _ Hmime)).
  assert (∀ files tr, add_attachment w files (JObj a) tr = (Ok files, tr)) as Hskip.
  { intros files' tr'. apply add_attachment_no_match. by rewrite Hstr. }
  repeat split; try done.
  intros d before after. unfold add_item. rewrite !bind_unfold.
  rewrite !add_attachments_list, !for_each_app.
  destruct (for_each (add_attachment w) [] before tr) as [[files'|e] tr']; [|done].
  rewrite for_each_cons, Hskip.
  destruct (for_each (add_attachment w) files' after tr') as [[files''|e] tr'']; [|done].
  rewrite !bind_unfold. unfold map_item. rewrite !bind_unfold. unfold clock, lift.
  by rewrite (mapper_ignores_attachments _ d (JArr (before ++ JObj a :: after))
                (JArr (before ++ after))).
Qed.

(** C7.  When the body does not decode as JSON, the handler ends with the
    error of the decoder and has done nothing: the trace is unchanged, so no
    item was handed to the store and no status 201 was sent. *)
Theorem malformed_payload rq raw e tr :
  read_input rq = Ok raw → json_loads w raw = Raise e →
  add w rq tr = (Raise e, tr).
Proof.
  intros Hraw Hjson. unfold add.
  rewrite (bind_Ok _ _ tr raw tr) by (unfold lift; by rewrite Hraw).
  apply bind_Raise. unfold lift. by rewrite Hjson.
Qed.

Lemma send_created raw tr :
  (send_response 201;; set_zotero_headers w;; wfile_write raw) tr
  = (Ok (), tr ++ created_response raw).
Proof.
  cbv beta iota delta [mbind M_bind send_response set_zotero_headers
                       send_header end_headers wfile_write emit perform].
  by rewrite <- !app_assoc.
Qed.

(** C8.  When the body decodes as an object whose [items] is an array and the
    loop over the items completes, the handler answers with status 201, the
    two protocol headers and the raw body it read, and the loop has run the
    pipeline once per item in the order of the array: its trace is the
    concatenation of one run per item, and the calls of the store are, in
    order, on the mapper's records of the items. *)
Theorem save_items_created rq raw d items tr tr1 :
  read_input rq = Ok raw → json_loads w raw = Ok (JObj d) →
  d !! "items" = Some (JArr items) →
  for_each (λ _ item, add_item w item) () items tr = (Ok (), tr1) →
  add w rq tr = (Ok (), tr1 ++ created_response raw)
  ∧ ∃ segs,
      tr1 = tr ++ concat segs
      ∧ Forall2 (pipeline_run w) items segs
      ∧ Forall2 (mapped_from w) items (adds_of (concat segs)).
Proof.
  intros Hraw Hjson Hitems Hloop. split; [|by apply items_loop_inv].
  unfold add.
  rewrite (bind_Ok _ _ tr raw tr) by (unfold lift; by rewrite Hraw).
  rewrite (bind_Ok _ _ tr (JObj d) tr) by (unfold lift; by rewrite Hjson).
  rewrite (bind_Ok _ _ tr items tr)
    by (unfold lift; cbn [py_getitem]; by rewrite Hitems).
  rewrite (bind_Ok _ _ _ _ _ Hloop).
  apply send_created.
Qed.
End Handler.

(** * Concrete runs *)

(** The mapper and the handler on the sample inputs: one run for each
    property above that has premises, and the runs that show where the
    connector specification says more than the server does. *)

Ltac solve_not_elem :=
  cbn; repeat (apply not_elem_of_cons; split; [done|]); apply not_elem_of_nil.

Lemma silent_on_nothing k : silent_on crossref_nothing k.
Proof. intros doi m [= <-]. apply lookup_empty. Qed.

Lemma test_scenario_body :
  String.length scenario_body = 55
  ∧ example_loads known_bodies (String.list_byte_of_string scenario_body)
    = Ok scenario_json.
Proof. by vm_compute. Qed.

(** ** The field mapper *)

(** The lookup answers with the keys [id] and [attachments]: both are in the
    record the mapper returns. *)
Lemma enrichment_id_reaches_record :
  ∃ data,
    (zotero_data_to_papis_data example_field_map example_repr crossref_with_id
       item_with_doi).1 = Ok data
    ∧ data !! "id" = Some (JInt 7)
    ∧ data !! "attachments" = Some (JArr []).
Proof.
  exists {[ "title" := JStr "T"; "doi" := JStr "10.1000/x";
            "id" := JInt 7; "attachments" := JArr []; "publisher" := JStr "ACME" ]}.
  by vm_compute.
Qed.

Lemma mapper_strips_id_attachments_witness :
  item_with_id !! "id" = Some (JInt 1)
  ∧ (zotero_data_to_papis_data example_field_map example_repr crossref_nothing
       item_with_id).1 = Ok {[ "title" := JStr "T" ]}
  ∧ ({[ "title" := JStr "T" ]} : dict) !! "id" = None
  ∧ ({[ "title" := JStr "T" ]} : dict) !! "attachments" = None.
Proof.
  split; [by vm_compute|]. split; [by vm_compute|].
  apply (mapper_strips_id_attachments example_field_map example_repr
           crossref_nothing item_with_id).
  - solve_not_elem.
  - solve_not_elem.
  - apply silent_on_nothing.
  - apply silent_on_nothing.
  - by vm_compute.
Defined.

(** The lookup fails: the mapper raises the error of the lookup, although the
    record without enrichment exists. *)
Lemma lookup_failure_aborts_mapping :
  unenriched example_field_map example_repr item_with_doi = Ok item_with_doi
  ∧ item_with_doi !! "doi" = Some (JStr "10.1000/x")
  ∧ (zotero_data_to_papis_data example_field_map example_repr crossref_down
       item_with_doi).1 = Raise URLError.
Proof. by vm_compute. Qed.

Lemma lookup_failure_propagates_witness :
  (zotero_data_to_papis_data example_field_map example_repr crossref_with_abstract
     item_with_doi).1
  = Ok (delete "title" {[ "abstract" := JStr "A3" ]} ∪ item_with_doi).
Proof.
  refine (proj1 (proj2 (lookup_failure_propagates example_field_map example_repr
                          crossref_with_abstract item_with_doi item_with_doi
                          (JStr "10.1000/x") _ _ _))
            {[ "abstract" := JStr "A3" ]} _); by vm_compute.
Defined.

(** [tags] given as a string is popped and not copied: the record has no
    [tags]. *)
Lemma tag_string_is_dropped :
  item_with_tag_string !! "tags" = Some (JStr "x")
  ∧ ∃ data,
      (zotero_data_to_papis_data example_field_map example_repr crossref_nothing
         item_with_tag_string).1 = Ok data
      ∧ data !! "tags" = None.
Proof.
  split; [by vm_compute|]. exists {[ "title" := JStr "T" ]}. by vm_compute.
Qed.

Lemma tags_mapping_witness :
  (zotero_data_to_papis_data example_field_map example_repr crossref_nothing
     item_with_tag_list).1 = Ok {[ "title" := JStr "T"; "tags" := JStr "a b c" ]}
  ∧ ({[ "title" := JStr "T"; "tags" := JStr "a b c" ]} : dict) !! "tags"
    = Some (JStr "a b c").
Proof.
  split; [by vm_compute|].
  refine (proj1 (tags_mapping example_field_map example_repr crossref_nothing
                   item_with_tag_list
                   {[ "title" := JStr "T"; "tags" := JStr "a b c" ]}
                   (JArr [JStr "a"; JStr "b"; JStr "c"]) _ _ _ _)
            ["a"; "b"; "c"] _).
  - solve_not_elem.
  - apply silent_on_nothing.
  - by vm_compute.
  - by vm_compute.
  - done.
Defined.

(** The item holds [abstractNote], which the table translates to [abstract],
    and [abstract] itself; the lookup answers with an [abstract] too.  The
    enrichment merge comes last: the record has the abstract of the lookup,
    not the one of the item. *)
Lemma enrichment_overwrites_leftover :
  ("abstractNote", "abstract") ∈ example_field_map
  ∧ item_with_both_abstracts_and_doi !! "abstractNote" = Some (JStr "A1")
  ∧ item_with_both_abstracts_and_doi !! "abstract" = Some (JStr "A2")
  ∧ ∃ data,
      (zotero_data_to_papis_data example_field_map example_repr
         crossref_with_abstract item_with_both_abstracts_and_doi).1 = Ok data
      ∧ data !! "abstract" = Some (JStr "A3").
Proof.
  split; [apply elem_of_cons; right; apply elem_of_cons; by left|].
  split; [by vm_compute|]. split; [by vm_compute|].
  exists {[ "abstract" := JStr "A3"; "doi" := JStr "10.1000/x" ]}. by vm_compute.
Qed.

Lemma leftover_overwrites_translated_witness :
  (zotero_data_to_papis_data example_field_map example_repr crossref_nothing
     item_with_both_abstracts).1 = Ok {[ "abstract" := JStr "A2" ]}
  ∧ ({[ "abstract" := JStr "A2" ]} : dict) !! "abstract" = Some (JStr "A2").
Proof.
  split; [by vm_compute|].
  apply (leftover_overwrites_translated example_field_map example_repr
           crossref_nothing item_with_both_abstracts _
           "abstractNote" "abstract" (JStr "A1") (JStr "A2")).
  - apply elem_of_cons. right. apply elem_of_cons. by left.
  - by vm_compute.
  - done.
  - solve_not_elem.
  - by vm_compute.
  - solve_not_elem.
  - apply silent_on_nothing.
  - by vm_compute.
Defined.

(** The same dict mapped twice, the lookup answering the same both times:
    the tags the first invocation delivered are missing from the record of
    the second. *)
Lemma second_invocation_differs :
  let first := zotero_data_to_papis_data example_field_map example_repr
                 crossref_nothing item_with_tag_list in
  let second := zotero_data_to_papis_data example_field_map example_repr
                  crossref_nothing first.2 in
  first.1 = Ok {[ "title" := JStr "T"; "tags" := JStr "a b c" ]}
  ∧ second.1 = Ok {[ "title" := JStr "T" ]}
  ∧ second.1 ≠ first.1.
Proof.
  cbv zeta. split; [by vm_compute|]. split; [by vm_compute|].
  intros H. vm_compute in H. discriminate H.
Qed.

Lemma mapper_second_invocation_witness :
  (zotero_data_to_papis_data example_field_map example_repr crossref_nothing
     (zotero_data_to_papis_data example_field_map example_repr crossref_nothing
        item_with_tag_list).2).1
  = crossref_update example_repr crossref_nothing
      (zotero_data_to_papis_data example_field_map example_repr crossref_nothing
         item_with_tag_list).2.
Proof.
  exact (proj1 (proj2 (mapper_second_invocation example_field_map example_repr
                         crossref_nothing item_with_tag_list))).
Defined.

(** ** The handler *)

(** The host of the only PDF of the request is unreachable: [URLError] leaves
    the handler, after the fetch and before anything is handed to the store
    or sent to the client. *)
Lemma unreachable_host_aborts_request :
  add (example_world known_bodies net_unreachable crossref_nothing)
      (example_request pdf_body) []
  = (Raise URLError, [EvUrlopen pdf_url]).
Proof. by vm_compute. Qed.

Lemma http_error_skips_attachment_witness :
  add_attachment (example_world known_bodies net_not_found crossref_nothing)
    [] (JObj attachment_pdf) []
  = (Ok [], [] ++ [EvUrlopen (dict_get "url" attachment_pdf)])
  ∧ for_each (add_attachment (example_world known_bodies net_not_found crossref_nothing))
      [] [JObj attachment_pdf; JObj attachment_without_mime] []
    = for_each (add_attachment (example_world known_bodies net_not_found crossref_nothing))
        [] [JObj attachment_without_mime]
        ([] ++ [EvUrlopen (dict_get "url" attachment_pdf)]).
Proof.
  apply (http_error_skips_attachment
           (example_world known_bodies net_not_found crossref_nothing)
           [] attachment_pdf [JObj attachment_without_mime] [] 404);
    by vm_compute.
Defined.

(** The same request when the server of the PDF answers 404: the item is
    added without files and the client gets its 201. *)
Lemma not_found_request_completes :
  add (example_world known_bodies net_not_found crossref_nothing)
      (example_request pdf_body) []
  = (Ok (), EvUrlopen pdf_url :: EvAdd [] {[ "title" := JStr "T" ]}
            :: created_response (String.list_byte_of_string pdf_body)).
Proof. by vm_compute. Qed.

(** The media type [application/PDF] contains [pdf] when case is ignored, and
    the network would serve the file, yet nothing is fetched. *)
Lemma upper_case_pdf_not_fetched :
  attachment_PDF_upper !! "mimeType" = Some (JStr "application/PDF")
  ∧ contains "pdf" (string_lower "application/PDF")
  ∧ add_attachment (example_world known_bodies net_serving crossref_nothing)
      [] (JObj attachment_PDF_upper) []
    = (Ok [], []).
Proof.
  split; [by vm_compute|].
  split; [by exists "application/", EmptyString|by vm_compute].
Qed.

Lemma lower_case_pdf_fetched :
  add_attachment (example_world known_bodies net_serving crossref_nothing)
    [] (JObj attachment_pdf) []
  = (Ok ["/tmp/tmp1.pdf"],
     [EvUrlopen pdf_url;
      EvWriteFile "/tmp/tmp1.pdf" (String.list_byte_of_string "%PDF");
      EvIsPdf "/tmp/tmp1.pdf"]).
Proof. by vm_compute. Qed.

Lemma fetch_decision_witness :
  ∃ r tr', add_attachment (example_world known_bodies net_serving crossref_nothing)
             [] (JObj attachment_pdf) []
           = (r, [] ++ EvUrlopen (dict_get "url" attachment_pdf) :: tr').
Proof.
  apply (fetch_decision (example_world known_bodies net_serving crossref_nothing)
           [] attachment_pdf "application/pdf" []).
  - by vm_compute.
  - exists "application/", EmptyString. split; [done|].
    unfold on_one_line. apply (bool_decide_unpack _). by vm_compute.
Defined.

Lemma malformed_payload_witness :
  add (example_world known_bodies net_serving crossref_nothing)
      (example_request "{not json") []
  = (Raise JSONDecodeError, []).
Proof.
  apply (malformed_payload (example_world known_bodies net_serving crossref_nothing)
           (example_request "{not json")
           (String.list_byte_of_string "{not json")); by vm_compute.
Defined.

(** The scenario of the specification: one record added, with [tags] joined
    and no files, then 201 and the body echoed. *)
Lemma save_items_created_witness :
  add (example_world known_bodies net_serving crossref_nothing)
      (example_request scenario_body) []
  = (Ok (), [EvAdd [] {[ "title" := JStr "T"; "tags" := JStr "x" ]}]
            ++ created_response (String.list_byte_of_string scenario_body)).
Proof.
  refine (proj1 (save_items_created
                   (example_world known_bodies net_serving crossref_nothing)
                   (example_request scenario_body)
                   (String.list_byte_of_string scenario_body)
                   {[ "items" := JArr [scenario_item] ]} [scenario_item] []
                   [EvAdd [] {[ "title" := JStr "T"; "tags" := JStr "x" ]}]
                   _ _ _ _)); by vm_compute.
Defined.

Lemma missing_mime_type_skipped_witness :
  add_attachment (example_world known_bodies net_serving crossref_nothing)
    [] (JObj attachment_without_mime) []
  = (Ok [], []).
Proof.
  refine (proj1 (proj2 (proj2 (missing_mime_type_skipped
                   (example_world known_bodies net_serving crossref_nothing)
                   [] attachment_without_mime [] _)))).
  by vm_compute.
Defined.

(** * Further properties of the mapper and of the handler *)

Section MapperMore.
Context (table : list (string * string)) (py_repr : json → string).
Implicit Types (lookup : string → result dict) (item data : dict) (k : string).

Lemma dict_get_not_none k item :
  is_none (dict_get k item) = false → item !! k = Some (dict_get k item).
Proof. unfold dict_get. by destruct (item !! k). Qed.

Lemma translate_data_origin tbl item data k x :
  (foldl translate_key (item, data) tbl).2 !! k = Some x →
  data !! k = Some x
  ∨ ∃ s, (s, k) ∈ tbl ∧ item !! s = Some x ∧ is_none x = false.
Proof.
  revert item data. induction tbl as [|[s0 c0] tbl IH]; intros item data.
  - by left.
  - rewrite translate_key_cons. intros [Hd|(s & Hin & Hs & Hx)]%IH.
    + destruct (is_none (dict_get s0 item)) eqn:Hnull; [by left|].
      destruct (decide (c0 = k)) as [->|Hne].
      * rewrite lookup_insert_eq in Hd. injection Hd as <-.
        right. exists s0. split; [by left|]. split; [|done].
        by apply dict_get_not_none.
      * rewrite lookup_insert_ne in Hd by done. by left.
    + right. exists s. split; [by right|]. split; [|done].
      by apply lookup_delete_Some in Hs as [_ Hs].
Qed.

Lemma str_items_inv l ss : str_items l = Ok ss → l = JStr <$> ss.
Proof.
  revert ss. induction l as [|x l IH]; intros ss.
  - by intros [= <-].
  - destruct x; try done. cbn. unfold result_map, result_bind.
    destruct (str_items l) as [ss'|e]; [|done].
    intros [= <-]. by rewrite (IH ss').
Qed.

Lemma str_items_not_str l x :
  x ∈ l → (∀ s, x ≠ JStr s) → str_items l = Raise TypeError.
Proof.
  intros Hin Hx. induction l as [|y l IH]; [by apply elem_of_nil in Hin|].
  apply elem_of_cons in Hin as [<-|Hin].
  - destruct x; try done. by destruct (Hx s).
  - destruct y; try done. cbn. by rewrite (IH Hin).
Qed.

(** X1.  When the record before enrichment has no [doi], or has [None] as
    its [doi], the lookup is not consulted: the mapper returns that record
    whatever the lookup would answer, even if it would fail. *)
Theorem no_doi_no_lookup item data0 :
  unenriched table py_repr item = Ok data0 →
  is_none (dict_get "doi" data0) = true →
  ∀ lookup, (zotero_data_to_papis_data table py_repr lookup item).1 = Ok data0.
Proof.
  intros Hun Hdoi lookup. rewrite (mapper_from_unenriched _ _ lookup _ _ Hun).
  unfold crossref_update. by rewrite Hdoi.
Qed.

(** X2.  Enrichment never replaces the title: the [title] of the record the
    mapper returns is the one of the record before enrichment, whatever the
    lookup answers. *)
Theorem title_not_enriched lookup item data0 data :
  unenriched table py_repr item = Ok data0 →
  (zotero_data_to_papis_data table py_repr lookup item).1 = Ok data →
  data !! "title" = data0 !! "title".
Proof.
  intros Hun. rewrite (mapper_from_unenriched _ _ lookup _ _ Hun).
  intros [->|(m & _ & ->)]%crossref_update_inv; [done|].
  apply lookup_union_r, lookup_delete_eq.
Qed.

(** X3.  What the call does to the dict it is given, whether it returns or
    raises: the keys [id], [attachments], [tags] and the source keys of the
    table are gone, every other key keeps its value. *)
Theorem mapper_pops_exactly lookup item k :
  (zotero_data_to_papis_data table py_repr lookup item).2 !! k
  = if decide (k ∈ popped_keys table) then None else item !! k.
Proof. apply mapper_item_after. Qed.

(** X4.  Where the values of the record come from.  A value the record holds
    under a key the lookup does not answer is a value of the item: either the
    item's value under the same key, which the mapper does not pop, or the
    value, other than [None], of a source key the table translates to this
    key, or, under [tags], the item's list of strings joined by spaces. *)
Theorem record_values_origin lookup item data k x :
  silent_on lookup k →
  (zotero_data_to_papis_data table py_repr lookup item).1 = Ok data →
  data !! k = Some x →
  ((k ∉ popped_keys table) ∧ item !! k = Some x)
  ∨ (∃ s, (s, k) ∈ table ∧ item !! s = Some x ∧ is_none x = false)
  ∨ (k = "tags" ∧ ∃ ss, item !! "tags" = Some (JArr (JStr <$> ss))
                         ∧ x = JStr (String.concat " " ss)).
Proof.
  intros Hsil (data1 & Htags & Hcr)%mapper_inv.
  rewrite (crossref_update_silent _ _ _ _ _ Hsil Hcr).
  unfold dict_update. rewrite lookup_union_Some_raw, mapper_item_after.
  intros [Hleft|[_ Hd1]].
  { case_decide; [done|]. by left. }
  right.
  assert (∀ s v, (foldl translate_key (delete "attachments" (delete "id" item), ∅) table).1
                   !! s = Some v → item !! s = Some v) as Hsub.
  { intros s v. rewrite translate_item_lookup. case_decide; [done|].
    by intros [_ [_ ?]%lookup_delete_Some]%lookup_delete_Some. }
  assert (∀ y, (foldl translate_key (delete "attachments" (delete "id" item), ∅) table).2
                 !! k = Some y →
               ∃ s, (s, k) ∈ table ∧ item !! s = Some y ∧ is_none y = false) as Htr.
  { intros y [He|(s & Hin & Hs & Hy)]%translate_data_origin; [done|].
    exists s. split; [done|]. split; [|done].
    by apply lookup_delete_Some in Hs as [_ [_ ?]%lookup_delete_Some]. }
  destruct (dict_get "tags" _) as [| | | | |l|] eqn:Hget;
    try (injection Htags as <-; left; by apply Htr).
  cbn in Htags. unfold str_join, result_map, result_bind in Htags.
  destruct (str_items l) as [ss|e] eqn:Hss; [|done]. injection Htags as <-.
  destruct (decide (k = "tags")) as [->|Hne].
  - rewrite lookup_insert_eq in Hd1. injection Hd1 as <-.
    right. split; [done|]. exists ss. split; [|done].
    apply str_items_inv in Hss as ->. apply Hsub.
    rewrite <- Hget. apply dict_get_not_none. by rewrite Hget.
  - rewrite lookup_insert_ne in Hd1 by done. left. by apply Htr.
Qed.

(** X5.  A known key is translated.  If the item holds the source key [s] with
    a value other than [None], the table translates [s] to [K] and no later
    entry of the table translates to [K] as well, then the record maps [K] to
    that value, provided nothing written afterwards replaces it: [K] is not
    [tags], the item has no leftover [K], and the lookup answers no [K]. *)
Theorem known_key_is_translated lookup item data before after s K v :
  table = before ++ (s, K) :: after →
  s ∉ before.*1 → K ∉ after.*2 →
  s ∉ ["id"; "attachments"] →
  item !! s = Some v → is_none v = false →
  K ≠ "tags" → (K ∈ popped_keys table ∨ item !! K = None) →
  silent_on lookup K →
  (zotero_data_to_papis_data table py_repr lookup item).1 = Ok data →
  data !! K = Some v.
Proof.
  intros Htable Hbefore Hafter Hs Hv Hnull HK Hleft Hsil
    (data1 & Htags & Hcr)%mapper_inv.
  rewrite (crossref_update_silent _ _ _ _ _ Hsil Hcr).
  unfold dict_update. rewrite lookup_union_r.
  2:{ rewrite mapper_item_after. case_decide; [done|]. by destruct Hleft. }
  rewrite (check_tags_other _ _ _ _ Htags HK).
  assert (s ≠ "id" ∧ s ≠ "attachments") as [Hid Hatt].
  { split; intros ->; apply Hs; rewrite ?elem_of_cons; tauto. }
  rewrite Htable, foldl_app.
  pose proof (translate_item_lookup before
                (delete "attachments" (delete "id" item)) ∅ s) as Hitem.
  rewrite decide_False, !lookup_delete_ne, Hv in Hitem by done.
  destruct (foldl translate_key _ before) as [item1 data0]. cbn [fst] in Hitem.
  rewrite translate_key_cons, (dict_get_Some _ _ _ Hitem), Hnull.
  rewrite translate_data_untouched by done. apply lookup_insert_eq.
Qed.

(** X6.  A list of tags with an element that is not a string makes the mapper
    raise [TypeError] (from [" ".join]), whatever the lookup. *)
Theorem tags_with_non_string_raise lookup item l x :
  "tags" ∉ table.*1 → item !! "tags" = Some (JArr l) →
  x ∈ l → (∀ s, x ≠ JStr s) →
  (zotero_data_to_papis_data table py_repr lookup item).1 = Raise TypeError.
Proof.
  intros Hsrc Htags Hin Hx. rewrite mapper_unfold. cbn [fst snd].
  assert ((foldl translate_key (delete "attachments" (delete "id" item), ∅) table).1
            !! "tags" = Some (JArr l)) as Hst.
  { rewrite translate_item_lookup, decide_False by done.
    by rewrite !lookup_delete_ne. }
  rewrite (dict_get_Some _ _ _ Hst). cbn [check_tags]. unfold str_join.
  by rewrite (str_items_not_str _ _ Hin Hx).
Qed.
End MapperMore.

Section Backend.
Context (w : world).
Implicit Types (files : list string) (a d : dict) (tr seg : list event) (item : json).

Lemma sent_to_client_app tr1 tr2 :
  sent_to_client (tr1 ++ tr2) = sent_to_client tr1 ++ sent_to_client tr2.
Proof. apply List.filter_app. Qed.

Lemma add_attachment_backend files att tr r tr' :
  add_attachment w files att tr = (r, tr') →
  ∃ seg, tr' = tr ++ seg ∧ sent_to_client seg = [].
Proof.
  destruct att as [| | | | | |a];
    try (intros [= _ <-]; exists []; by rewrite app_nil_r).
  destruct (re_match pdf_pattern (py_str (repr w) (dict_get "mimeType" a))) eqn:Hm.
  - rewrite add_attachment_match by done. cbn zeta.
    destruct (urlopen_read _ _ _) as [buf|e].
    + destruct (write_file _ _ _ _) as [[]|e].
      * destruct (is_pdf _ _ _) as [[]|e]; intros [= _ <-];
          rewrite <- !app_assoc; by eexists.
      * intros [= _ <-]. rewrite <- !app_assoc; by eexists.
    + destruct e; intros [= _ <-]; by eexists.
  - rewrite add_attachment_no_match by done.
    intros [= _ <-]; exists []; by rewrite app_nil_r.
Qed.

Lemma attachments_loop_backend l files tr r tr' :
  for_each (add_attachment w) files l tr = (r, tr') →
  ∃ seg, tr' = tr ++ seg ∧ sent_to_client seg = [].
Proof.
  revert files tr. induction l as [|att l IH]; intros files tr.
  - intros [= _ <-]. exists []. by rewrite app_nil_r.
  - rewrite for_each_cons.
    destruct (add_attachment w files att tr) as [[files'|e] tr1] eqn:Hatt;
      apply add_attachment_backend in Hatt as (seg1 & -> & Hseg1).
    + intros (seg2 & -> & Hseg2)%IH. exists (seg1 ++ seg2).
      by rewrite app_assoc, sent_to_client_app, Hseg1, Hseg2.
    + intros [= _ <-]. by exists seg1.
Qed.

Lemma add_attachments_backend item tr r tr' :
  add_attachments w item tr = (r, tr') →
  ∃ seg, tr' = tr ++ seg ∧ sent_to_client seg = [].
Proof.
  assert (∀ x : result (list string), (x, tr) = (r, tr') →
            ∃ seg, tr' = tr ++ seg ∧ sent_to_client seg = []) as Hpure.
  { intros x [= _ <-]. exists []. by rewrite app_nil_r. }
  unfold add_attachments. rewrite bind_unfold. unfold lift at 1.
  destruct (py_get item "attachments") as [att|e]; [|apply Hpure].
  destruct (truthy att); [|apply Hpure].
  rewrite bind_unfold. unfold lift at 1.
  destruct (py_len att) as [n|e]; [|apply Hpure].
  case_bool_decide; [|apply Hpure].
  rewrite bind_unfold. unfold lift at 1.
  destruct (py_iter att) as [l|e]; [|apply Hpure].
  apply attachments_loop_backend.
Qed.

Lemma add_item_backend item tr r tr' :
  add_item w item tr = (r, tr') →
  ∃ seg, tr' = tr ++ seg ∧ sent_to_client seg = [].
Proof.
  unfold add_item. rewrite bind_unfold.
  destruct (add_attachments w item tr) as [[files|e] tr1] eqn:Hatt;
    apply add_attachments_backend in Hatt as (seg & -> & Hseg);
    [|intros [= _ <-]; by exists seg].
  rewrite bind_unfold. destruct item as [| | | | | |d];
    try (intros [= _ <-]; by exists seg).
  cbv beta iota delta [map_item mbind M_bind clock lift perform].
  destruct (zotero_data_to_papis_data _ _ _ d).1 as [data|e];
    intros [= _ <-]; [|by exists seg].
  exists (seg ++ [EvAdd files data]).
  by rewrite app_assoc, sent_to_client_app, Hseg.
Qed.

Lemma items_loop_backend items tr r tr' :
  for_each (λ _ item, add_item w item) () items tr = (r, tr') →
  ∃ seg, tr' = tr ++ seg ∧ sent_to_client seg = [].
Proof.
  revert tr. induction items as [|item items IH]; intros tr.
  - intros [= _ <-]. exists []. by rewrite app_nil_r.
  - rewrite for_each_cons.
    destruct (add_item w item tr) as [[[]|e] tr1] eqn:Hitem;
      apply add_item_backend in Hitem as (seg1 & -> & Hseg1).
    + intros (seg2 & -> & Hseg2)%IH. exists (seg1 ++ seg2).
      by rewrite app_assoc, sent_to_client_app, Hseg1, Hseg2.
    + intros [= _ <-]. by exists seg1.
Qed.

Lemma add_unfold rq tr :
  add w rq tr
  = match read_input rq with
    | Raise e => (Raise e, tr)
    | Ok raw =>
        match json_loads w raw with
        | Raise e => (Raise e, tr)
        | Ok data =>
            match result_bind (py_getitem data "items") py_iter with
            | Raise e => (Raise e, tr)
            | Ok items =>
                match for_each (λ _ item, add_item w item) () items tr with
                | (Raise e, tr1) => (Raise e, tr1)
                | (Ok _, tr1) => (Ok (), tr1 ++ created_response raw)
                end
            end
        end
    end.
Proof.
  unfold add. rewrite bind_unfold. unfold lift at 1.
  destruct (read_input rq) as [raw|e]; [|done].
  rewrite bind_unfold. unfold lift at 1.
  destruct (json_loads w raw) as [data|e]; [|done].
  rewrite bind_unfold. unfold lift at 1.
  destruct (result_bind _ _) as [items|e]; [|done].
  rewrite bind_unfold.
  destruct (for_each _ _ _ _) as [[[]|e] tr1]; [|done].
  apply send_created.
Qed.



(** X9.  An item that raises ends the request: the handler raises the same
    error, the items before it have been handed to the store, the items after
    it are not processed, and nothing has been sent to the client. *)
Theorem failing_item_aborts_batch rq raw d before item rest tr tr1 e tr2 :
  read_input rq = Ok raw → json_loads w raw = Ok (JObj d) →
  d !! "items" = Some (JArr (before ++ item :: rest)) →
  for_each (λ _ item, add_item w item) () before tr = (Ok (), tr1) →
  add_item w item tr1 = (Raise e, tr2) →
  add w rq tr = (Raise e, tr2)
  ∧ ∃ segs seg,
      tr2 = tr ++ concat segs ++ seg
      ∧ Forall2 (pipeline_run w) before segs
      ∧ Forall2 (mapped_from w) before (adds_of (concat segs))
      ∧ sent_to_client (concat segs ++ seg) = [].
Proof.
  intros Hraw Hjson Hitems Hdone Hitem. split.
  - rewrite add_unfold, Hraw, Hjson. cbn [py_getitem]. rewrite Hitems.
    cbn [result_bind py_iter]. rewrite for_each_app, Hdone, for_each_cons.
    by rewrite Hitem.
  - pose proof Hdone as (segs & -> & Hruns & Hadds)%items_loop_inv.
    pose proof Hdone as (seg0 & Heq & Hseg0)%items_loop_backend.
    apply app_inv_head in Heq as <-.
    pose proof Hitem as (seg & -> & Hseg)%add_item_backend.
    exists segs, seg. rewrite sent_to_client_app, Hseg0, Hseg.
    by rewrite <- app_assoc.
Qed.

(** X10.  A body that decodes but has no usable [items]: [TypeError] when it
    is not an object or when [items] is neither a list, a string nor an
    object, [KeyError] when the object has no [items]; in each case nothing
    has been done. *)
Theorem body_without_items rq raw v tr :
  read_input rq = Ok raw → json_loads w raw = Ok v →
  ((∀ d, v ≠ JObj d) → add w rq tr = (Raise TypeError, tr))
  ∧ (∀ d, v = JObj d → d !! "items" = None → add w rq tr = (Raise KeyError, tr))
  ∧ (∀ d x, v = JObj d → d !! "items" = Some x →
            match x with JArr _ | JStr _ | JObj _ => False | _ => True end →
            add w rq tr = (Raise TypeError, tr)).
Proof.
  intros Hraw Hjson. rewrite add_unfold, Hraw, Hjson. repeat split.
  - intros Hv. destruct v; try done. by destruct (Hv m).
  - intros d -> Hd. cbn. by rewrite Hd.
  - intros d x -> Hd Hx. cbn. rewrite Hd. by destruct x.
Qed.

(** X11.  A batch without items is acknowledged: when [items] is an empty
    list (or an empty string or object, over which the loop runs zero times)
    the handler sends its 201 response with the body echoed and calls nothing
    else. *)
Theorem empty_batch_acknowledged rq raw d x tr :
  read_input rq = Ok raw → json_loads w raw = Ok (JObj d) →
  d !! "items" = Some x →
  x = JArr [] ∨ x = JStr EmptyString ∨ x = JObj ∅ →
  add w rq tr = (Ok (), tr ++ created_response raw).
Proof.
  intros Hraw Hjson Hd Hx. rewrite add_unfold, Hraw, Hjson. cbn [py_getitem].
  rewrite Hd. by destruct Hx as [->|[->| ->]].
Qed.
End Backend.

Section Files.
Context (w : world).
Implicit Types (files new : list string) (a d : dict) (tr seg : list event) (item : json).

Lemma add_attachment_files files att tr files' tr' :
  add_attachment w files att tr = (Ok files', tr') →
  ∃ new seg, files' = files ++ new ∧ tr' = tr ++ seg ∧ ∀ p, p ∈ new → checked_pdf w seg p.
Proof.
  assert (∀ seg, ∃ new seg', files = files ++ new ∧ tr ++ seg = tr ++ seg'
                   ∧ ∀ p, p ∈ new → checked_pdf w seg' p) as Hsame.
  { intros seg. exists [], seg. rewrite app_nil_r. split; [done|]. split; [done|].
    by intros p ?%elem_of_nil. }
  destruct att as [| | | | | |a]; try done.
  destruct (re_match pdf_pattern (py_str (repr w) (dict_get "mimeType" a))) eqn:Hm.
  - rewrite add_attachment_match by done. cbn zeta.
    destruct (urlopen_read _ _ _) as [buf|e].
    + destruct (write_file _ _ _ _) as [[]|e]; [|done].
      destruct (is_pdf _ _ _) as [[]|e] eqn:Hpdf; [| |done];
        intros [= <- <-]; rewrite <- !app_assoc; [|apply Hsame].
      eexists [_], _. split; [done|]. split; [done|].
      intros p ->%list_elem_of_singleton. eexists _, _.
      split; [|split; [|exact Hpdf]].
      * apply elem_of_cons. right. apply elem_of_cons. by left.
      * apply elem_of_cons. right. apply elem_of_cons. right. apply elem_of_cons. by left.
    + destruct e; try done. intros [= <- <-]. apply Hsame.
  - rewrite add_attachment_no_match by done. intros [= <- <-].
    destruct (Hsame []) as (new & seg & H1 & H2 & H3). exists new, seg.
    by rewrite app_nil_r in H2.
Qed.

Lemma attachments_loop_files l files tr files' tr' :
  for_each (add_attachment w) files l tr = (Ok files', tr') →
  ∃ new seg, files' = files ++ new ∧ tr' = tr ++ seg ∧ ∀ p, p ∈ new → checked_pdf w seg p.
Proof.
  revert files tr. induction l as [|att l IH]; intros files tr.
  - intros [= <- <-]. exists [], []. rewrite !app_nil_r. split; [done|]. split; [done|].
    by intros p ?%elem_of_nil.
  - rewrite for_each_cons.
    destruct (add_attachment w files att tr) as [[files1|e] tr1] eqn:Hatt; [|done].
    apply add_attachment_files in Hatt as (new1 & seg1 & -> & -> & Hnew1).
    intros (new2 & seg2 & -> & -> & Hnew2)%IH.
    exists (new1 ++ new2), (seg1 ++ seg2). rewrite !app_assoc.
    split; [done|]. split; [done|].
    intros p [Hp|Hp]%elem_of_app.
    + destruct (Hnew1 p Hp) as (t & c & H1 & H2 & H3). exists t, c.
      rewrite !elem_of_app. tauto.
    + destruct (Hnew2 p Hp) as (t & c & H1 & H2 & H3). exists t, c.
      rewrite !elem_of_app. tauto.
Qed.

Lemma add_attachments_files item tr files tr' :
  add_attachments w item tr = (Ok files, tr') →
  ∃ seg, tr' = tr ++ seg ∧ ∀ p, p ∈ files → checked_pdf w seg p.
Proof.
  assert ((Ok [], tr) = (Ok files, tr') →
            ∃ seg, tr' = tr ++ seg ∧ ∀ p, p ∈ files → checked_pdf w seg p) as Hnone.
  { intros [= <- <-]. exists []. rewrite app_nil_r. split; [done|].
    by intros p ?%elem_of_nil. }
  unfold add_attachments. rewrite bind_unfold. unfold lift at 1.
  destruct (py_get item "attachments") as [att|e]; [|done].
  destruct (truthy att); [|apply Hnone].
  rewrite bind_unfold. unfold lift at 1.
  destruct (py_len att) as [n|e]; [|done].
  case_bool_decide; [|apply Hnone].
  rewrite bind_unfold. unfold lift at 1.
  destruct (py_iter att) as [l|e]; [|done].
  intros (new & seg & -> & -> & Hnew)%attachments_loop_files. by exists seg.
Qed.

(** X7.  Every file handed to the store by a run of the pipeline was written
    during that run and accepted by [is_pdf]; the run calls the store once, at
    its end. *)
Theorem attached_files_were_checked item tr tr' :
  add_item w item tr = (Ok (), tr') →
  ∃ seg files data,
    tr' = tr ++ seg ++ [EvAdd files data]
    ∧ adds_of seg = []
    ∧ ∀ p, p ∈ files → checked_pdf w seg p.
Proof.
  intros (d & files & seg & data & -> & Hatt & Hadds & _ & ->)%add_item_inv.
  apply add_attachments_files in Hatt as (seg' & ->%app_inv_head & Hfiles).
  by exists seg', files, data.
Qed.

(** X8.  The [attachments] of an item.  A value that counts as false (absent,
    [None], an empty list, string or dict, zero) means no attachments: nothing
    is fetched and the file list is empty.  A value that counts as true and is
    not a list aborts the item before any effect: [AttributeError] for a
    string or a dict, whose elements have no [get], [TypeError] for a number
    or [True], which have no length. *)
Theorem attachments_not_a_list d tr :
  (truthy (dict_get "attachments" d) = false →
     add_attachments w (JObj d) tr = (Ok [], tr))
  ∧ (∀ v, d !! "attachments" = Some v → truthy v = true → is_list v = false →
       add_item w (JObj d) tr
       = (Raise match v with
                | JStr _ | JObj _ => AttributeError
                | _ => TypeError
                end, tr)).
Proof.
  split.
  - intros Hf. unfold add_attachments. rewrite bind_unfold. unfold lift at 1.
    cbn [py_get]. by rewrite Hf.
  - intros v Hv Ht Hl. unfold add_item. rewrite bind_unfold.
    unfold add_attachments. rewrite bind_unfold. unfold lift at 1.
    cbn [py_get]. rewrite (dict_get_Some _ _ _ Hv), Ht.
    rewrite bind_unfold. unfold lift at 1.
    destruct v as [| | | |s|l|m]; try done.
    + destruct s as [|c s]; [done|]. cbn [py_len String.length].
      rewrite bool_decide_eq_true_2 by lia. by rewrite bind_unfold.
    + cbn [py_len]. cbn [truthy] in Ht. apply negb_true_iff in Ht.
      apply bool_decide_eq_false in Ht.
      assert (m ≠ ∅) as Hm by (intros ->; apply Ht; apply dom_empty_L).
      rewrite bool_decide_eq_true_2
        by (apply map_size_non_empty_iff in Hm; lia).
      rewrite bind_unfold. unfold lift at 1. cbn [py_iter].
      destruct (map_to_list m) as [|[k x] rest] eqn:Hlist;
        [by apply map_to_list_empty_iff in Hlist|done].
Qed.
End Files.

Section Routes.
Context (w : world) (lib : library).
Implicit Types (tr seg : list event) (path : string) (rq : request).






End Routes.

(** ** Runs of the further properties *)

Lemma test_pong_bodies :
  String.length pong_html = 302
  ∧ String.length pong_json = 39
  ∧ String.length (collection_json example_library "papers") = 114.
Proof. by vm_compute. Qed.

Lemma no_doi_no_lookup_witness :
  (zotero_data_to_papis_data example_field_map example_repr crossref_down
     item_with_tag_list).1
  = Ok {[ "title" := JStr "T"; "tags" := JStr "a b c" ]}.
Proof.
  apply (no_doi_no_lookup example_field_map example_repr item_with_tag_list);
    by vm_compute.
Defined.

Lemma title_not_enriched_witness :
  (zotero_data_to_papis_data example_field_map example_repr crossref_with_title
     item_with_doi).1
  = Ok {[ "title" := JStr "T"; "doi" := JStr "10.1000/x";
          "publisher" := JStr "ACME" ]}
  ∧ ({[ "title" := JStr "T"; "doi" := JStr "10.1000/x";
        "publisher" := JStr "ACME" ]} : dict) !! "title"
    = item_with_doi !! "title".
Proof.
  split; [by vm_compute|].
  apply (title_not_enriched example_field_map example_repr crossref_with_title
           item_with_doi); by vm_compute.
Defined.

Lemma mapper_pops_exactly_witness :
  (zotero_data_to_papis_data example_field_map example_repr crossref_down
     item_with_id).2 !! "title" = Some (JStr "T")
  ∧ (zotero_data_to_papis_data example_field_map example_repr crossref_down
       item_with_id).2 !! "id" = None.
Proof.
  rewrite !(mapper_pops_exactly example_field_map example_repr crossref_down
              item_with_id).
  by vm_compute.
Defined.

Lemma record_values_origin_witness :
  (("abstract" ∉ popped_keys example_field_map)
   ∧ item_with_both_abstracts !! "abstract" = Some (JStr "A2"))
  ∨ (∃ s, (s, "abstract") ∈ example_field_map
          ∧ item_with_both_abstracts !! s = Some (JStr "A2")
          ∧ is_none (JStr "A2") = false)
  ∨ ("abstract" = "tags"
     ∧ ∃ ss, item_with_both_abstracts !! "tags" = Some (JArr (JStr <$> ss))
             ∧ JStr "A2" = JStr (String.concat " " ss)).
Proof.
  apply (record_values_origin example_field_map example_repr crossref_nothing
           item_with_both_abstracts {[ "abstract" := JStr "A2" ]}).
  - apply silent_on_nothing.
  - by vm_compute.
  - by vm_compute.
Defined.

Lemma known_key_is_translated_witness :
  (zotero_data_to_papis_data example_field_map example_repr crossref_nothing
     item_with_abstract_note).1
  = Ok {[ "title" := JStr "T"; "abstract" := JStr "A1" ]}
  ∧ ({[ "title" := JStr "T"; "abstract" := JStr "A1" ]} : dict) !! "abstract"
    = Some (JStr "A1").
Proof.
  split; [by vm_compute|].
  apply (known_key_is_translated example_field_map example_repr crossref_nothing
           item_with_abstract_note _
           [("DOI", "doi")] [("publicationTitle", "journal")]
           "abstractNote" "abstract" (JStr "A1")).
  - done.
  - solve_not_elem.
  - solve_not_elem.
  - solve_not_elem.
  - by vm_compute.
  - done.
  - done.
  - right. by vm_compute.
  - apply silent_on_nothing.
  - by vm_compute.
Defined.

Lemma tags_with_non_string_raise_witness :
  (zotero_data_to_papis_data example_field_map example_repr crossref_nothing
     item_with_tag_objects).1 = Raise TypeError.
Proof.
  apply (tags_with_non_string_raise example_field_map example_repr
           crossref_nothing item_with_tag_objects
           [JObj {[ "tag" := JStr "x" ]}] (JObj {[ "tag" := JStr "x" ]})).
  - solve_not_elem.
  - by vm_compute.
  - by left.
  - done.
Defined.

Lemma attached_files_were_checked_witness :
  add_item (example_world known_bodies net_serving crossref_nothing) pdf_item []
  = (Ok (),
     [EvUrlopen pdf_url;
      EvWriteFile "/tmp/tmp1.pdf" (String.list_byte_of_string "%PDF");
      EvIsPdf "/tmp/tmp1.pdf";
      EvAdd ["/tmp/tmp1.pdf"] {[ "title" := JStr "T" ]}])
  ∧ ∃ seg files data,
      [EvUrlopen pdf_url;
       EvWriteFile "/tmp/tmp1.pdf" (String.list_byte_of_string "%PDF");
       EvIsPdf "/tmp/tmp1.pdf";
       EvAdd ["/tmp/tmp1.pdf"] {[ "title" := JStr "T" ]}]
      = [] ++ seg ++ [EvAdd files data]
      ∧ adds_of seg = []
      ∧ ∀ p, p ∈ files →
          checked_pdf (example_world known_bodies net_serving crossref_nothing) seg p.
Proof.
  split; [by vm_compute|].
  apply (attached_files_were_checked
           (example_world known_bodies net_serving crossref_nothing) pdf_item []).
  by vm_compute.
Defined.

Lemma attachments_not_a_list_witness :
  add_item (example_world known_bodies net_serving crossref_nothing)
    (JObj item_with_attachment_string) []
  = (Raise AttributeError, []).
Proof.
  apply (proj2 (attachments_not_a_list
                  (example_world known_bodies net_serving crossref_nothing)
                  item_with_attachment_string []) (JStr "a.pdf"));
    by vm_compute.
Defined.

Lemma failing_item_aborts_batch_witness :
  add (example_world more_bodies net_serving crossref_nothing)
      (example_request mixed_body) []
  = (Raise AttributeError,
     [EvAdd [] {[ "title" := JStr "T"; "tags" := JStr "x" ]}]).
Proof.
  refine (proj1 (failing_item_aborts_batch
                   (example_world more_bodies net_serving crossref_nothing)
                   (example_request mixed_body)
                   (String.list_byte_of_string mixed_body)
                   {[ "items" := JArr [scenario_item; JInt 5] ]}
                   [scenario_item] (JInt 5) [] []
                   [EvAdd [] {[ "title" := JStr "T"; "tags" := JStr "x" ]}]
                   AttributeError
                   [EvAdd [] {[ "title" := JStr "T"; "tags" := JStr "x" ]}]
                   _ _ _ _ _)); by vm_compute.
Defined.

Lemma body_without_items_witness :
  add (example_world more_bodies net_serving crossref_nothing)
      (example_request empty_object_body) []
  = (Raise KeyError, []).
Proof.
  refine (proj1 (proj2 (body_without_items
                   (example_world more_bodies net_serving crossref_nothing)
                   (example_request empty_object_body)
                   (String.list_byte_of_string empty_object_body)
                   (JObj ∅) [] _ _)) ∅ _ _); by vm_compute.
Defined.

Lemma empty_batch_acknowledged_witness :
  add (example_world more_bodies net_serving crossref_nothing)
      (example_request empty_batch_body) []
  = (Ok (), [] ++ created_response (String.list_byte_of_string empty_batch_body)).
Proof.
  apply (empty_batch_acknowledged
           (example_world more_bodies net_serving crossref_nothing)
           (example_request empty_batch_body)
           (String.list_byte_of_string empty_batch_body)
           {[ "items" := JArr [] ]} (JArr [])); try by vm_compute.
  by left.
Defined.




(** The answers to a ping and to the query for the collection. *)
Lemma test_ping_and_collection :
  do_GET (example_world known_bodies net_serving crossref_nothing)
    "/connector/ping" []
  = (Ok (),
     EvSendResponse 200 :: EvSendHeader "Content-Type" "text/html"
       :: protocol_headers ++ [EvWrite (String.list_byte_of_string pong_html)])
  ∧ do_POST (example_world known_bodies net_serving crossref_nothing)
      example_library "/connector/ping" (example_request EmptyString) []
    = (Ok (),
       EvSendResponse 200 :: EvSendHeader "Content-Type" "application/json"
         :: protocol_headers ++ [EvWrite (String.list_byte_of_string pong_json)])
  ∧ do_POST (example_world known_bodies net_serving crossref_nothing)
      example_library "/connector/getSelectedCollection"
      (example_request EmptyString) []
    = (Ok (),
       EvSendResponse 200 :: EvSendHeader "Content-Type" "application/json"
         :: protocol_headers
         ++ [EvWrite (String.list_byte_of_string
                        (collection_json example_library "papers"))])
  ∧ do_POST (example_world known_bodies net_serving crossref_nothing)
      example_library "/connector/unknown" (example_request EmptyString) []
    = (Ok (), []).
Proof. by vm_compute. Qed.
